(** * drivers/regulator/multi-regulator.c: the multi-input regulator driver

    A shallow embedding of the three regulator operations of the driver
    ([multi_regulator_enable], [multi_regulator_disable],
    [multi_regulator_is_enabled]) and of the device-tree parsing loop of
    [multi_regulator_probe], followed by the properties of the power
    sequencing they implement.

    The consumer API of the regulator core ([regulator_set_voltage],
    [regulator_enable], [regulator_disable]) and [usleep_range] are external
    to the driver: they are an interface ([RegulatorCore]) over an opaque
    state, and every theorem holds for every implementation of it.  Each
    driver function is a computation that threads the driver data and the
    state of the core, and returns the list of external calls and
    diagnostics it issued, in program order. *)

From Stdlib Require Import ZArith String List Bool Sorted Lia.
Import ListNotations.
Local Open Scope list_scope.
Local Open Scope Z_scope.

(** ** C integers *)

(** [unsigned int] is 32 bits wide; arithmetic on it wraps. *)
Definition UINT_WIDTH : Z := 32.
Definition uint_wrap (x : Z) : Z := x mod 2 ^ UINT_WIDTH.

(** An [unsigned int] passed for an [int] parameter: the value is taken
    modulo 2^32 into the range of [int], as the compilers of the kernel
    define the conversion. *)
Definition to_int (x : Z) : Z :=
  (x + 2 ^ (UINT_WIDTH - 1)) mod 2 ^ UINT_WIDTH - 2 ^ (UINT_WIDTH - 1).

(** include/uapi/asm-generic/errno-base.h *)
Definition ENOMEM : Z := 12.
Definition EINVAL : Z := 22.

(** A C condition: nonzero is true. *)
Definition truthy (x : Z) : bool := negb (x =? 0).

(** ** The external interface *)

(** The regulator consumer API and the sleep primitive.  A [struct regulator *]
    is [option regulator], [None] being the NULL pointer; the driver hands the
    pointer over as it is.  [regulator_set_voltage] takes its two bounds as
    [int]; [usleep_range] takes [unsigned long] bounds, which hold every
    [unsigned int].  The [int] results are the callee's return codes. *)
Class RegulatorCore (regulator world : Type) := {
  regulator_set_voltage : option regulator -> Z -> Z -> world -> Z * world;
  regulator_enable : option regulator -> world -> Z * world;
  regulator_disable : option regulator -> world -> Z * world;
  usleep_range : Z -> Z -> world -> world
}.

(** An external call as the driver issues it. *)
Inductive call (regulator : Type) : Type :=
| SetVoltage (r : option regulator) (min_uV max_uV : Z)
| Enable (r : option regulator)
| Disable (r : option regulator)
| Sleep (min max : Z).
Arguments SetVoltage {regulator} r min_uV max_uV.
Arguments Enable {regulator} r.
Arguments Disable {regulator} r.
Arguments Sleep {regulator} min max.

Inductive loglevel : Type := KERN_ERR | KERN_WARNING | KERN_INFO | KERN_DEBUG.

(** An argument of a [printk] format: [%s], or [%d]/[%u]. *)
Inductive fmt_arg : Type := ArgS (s : string) | ArgD (n : Z).

(** What a run leaves behind: a call together with its return code (0 for
    the [void] sleep), or a diagnostic line with its format and arguments. *)
Inductive event (regulator : Type) : Type :=
| Called (c : call regulator) (rc : Z)
| Logged (lvl : loglevel) (fmt : string) (args : list fmt_arg).
Arguments Called {regulator} c rc.
Arguments Logged {regulator} lvl fmt args.

(** The calls of a trace, without return codes and diagnostics. *)
Definition calls {regulator : Type} (tr : list (event regulator))
  : list (call regulator) :=
  flat_map (fun e => match e with Called c _ => [c] | Logged _ _ _ => [] end) tr.

Definition is_disable {regulator : Type} (c : call regulator) : bool :=
  match c with Disable _ => true | _ => false end.
Definition is_set_voltage {regulator : Type} (c : call regulator) : bool :=
  match c with SetVoltage _ _ _ => true | _ => false end.
Definition is_sleep {regulator : Type} (c : call regulator) : bool :=
  match c with Sleep _ _ => true | _ => false end.

(** The entries of [struct regulator_ops] the driver fills in. *)
Inductive regulator_op : Type := OP_enable | OP_disable | OP_is_enabled.

(** ** The driver *)

Section Driver.

Context {regulator world : Type} {core : RegulatorCore regulator world}.

(** [struct multi_regulator_data]: four parallel arrays of [count] entries. *)
Record multi_regulator_data : Type := {
  regulators : list (option regulator);
  name : string;
  min_uV : list Z;
  max_uV : list Z;
  pon_delay_us : list Z;
  poff_delay_us : list Z;
  count : Z;
  enabled : bool
}.

Definition set_enabled (b : bool) (data : multi_regulator_data)
  : multi_regulator_data :=
  {| regulators := regulators data; name := name data;
     min_uV := min_uV data; max_uV := max_uV data;
     pon_delay_us := pon_delay_us data; poff_delay_us := poff_delay_us data;
     count := count data; enabled := b |}.

(** The memory the driver works on: what [rdev_get_drvdata(rdev)] points to
    ([None] when it is NULL) and the state of the regulator core. *)
Record state : Type := {
  drvdata : option multi_regulator_data;
  hw : world
}.

(** A driver computation: [None] is undefined behaviour (a NULL [data] is
    dereferenced, an array is read outside its bounds); otherwise the
    result, the new state and the events issued. *)
Definition M (A : Type) : Type :=
  state -> option (A * state * list (event regulator)).

Definition ret {A} (a : A) : M A := fun s => Some (a, s, []).

Definition bind {A B} (m : M A) (f : A -> M B) : M B :=
  fun s =>
    match m s with
    | None => None
    | Some (a, s1, t1) =>
        match f a s1 with
        | None => None
        | Some (b, s2, t2) => Some (b, s2, t1 ++ t2)
        end
    end.

Notation "x <- m ;; k" := (bind m (fun x => k))
  (at level 61, m at next level, right associativity).
Notation "m ;; k" := (bind m (fun _ => k))
  (at level 61, right associativity).

(** [a[i]] *)
Definition load {A} (a : list A) (i : Z) : M A :=
  fun s =>
    if i <? 0 then None
    else match nth_error a (Z.to_nat i) with
         | Some x => Some (x, s, [])
         | None => None
         end.

Definition call_ext (c : call regulator)
    (f : world -> Z * world) : M Z :=
  fun s =>
    let (rc, w) := f (hw s) in
    Some (rc, {| drvdata := drvdata s; hw := w |}, [Called c rc]).

(** [regulator_set_voltage(r, lo, hi)] with [unsigned int] arguments for
    the [int] parameters [min_uV] and [max_uV]. *)
Definition do_set_voltage (r : option regulator) (lo hi : Z) : M Z :=
  call_ext (SetVoltage r (to_int lo) (to_int hi))
    (regulator_set_voltage r (to_int lo) (to_int hi)).
Definition do_enable (r : option regulator) : M Z :=
  call_ext (Enable r) (regulator_enable r).
Definition do_disable (r : option regulator) : M Z :=
  call_ext (Disable r) (regulator_disable r).
Definition do_usleep_range (lo hi : Z) : M unit :=
  fun s =>
    Some (tt, {| drvdata := drvdata s; hw := usleep_range lo hi (hw s) |},
          [Called (Sleep lo hi) 0]).

Definition dev_err (fmt : string) (args : list fmt_arg) : M unit :=
  fun s => Some (tt, s, [Logged KERN_ERR fmt args]).
Definition dev_warn (fmt : string) (args : list fmt_arg) : M unit :=
  fun s => Some (tt, s, [Logged KERN_WARNING fmt args]).

(** [data->enabled = b] *)
Definition store_enabled (b : bool) : M unit :=
  fun s =>
    match drvdata s with
    | None => None
    | Some data =>
        Some (tt, {| drvdata := Some (set_enabled b data); hw := hw s |}, [])
    end.

Definition MSG_ALREADY_ENABLED : string := "%s: already enabled".
Definition MSG_SET_VOLTAGE : string := "%s: failed to set voltage, i=%d: %d".
Definition MSG_ENABLE : string := "%s: failed to enable regulator, i=%d: %d".
Definition MSG_ALREADY_DISABLED : string := "%s: already disabled".
Definition MSG_DISABLE : string := "%s: failed to disable regulator, i=%d: %d".

(** One iteration of the loop of [multi_regulator_enable].  [Some rc] is a
    [return rc] out of the function, [None] falls through to [i++]. *)
Definition enable_body (data : multi_regulator_data) (i : Z) : M (option Z) :=
  lo <- load (min_uV data) i ;;
  gate <- (if truthy lo then ret true
           else hi <- load (max_uV data) i ;; ret (truthy hi)) ;;
  returned <- (if gate : bool then
                 r <- load (regulators data) i ;;
                 lo <- load (min_uV data) i ;;
                 hi <- load (max_uV data) i ;;
                 rc <- do_set_voltage r lo hi ;;
                 if truthy rc then
                   dev_err MSG_SET_VOLTAGE [ArgS (name data); ArgD i; ArgD rc] ;;
                   ret (Some (- EINVAL))
                 else ret None
               else ret None) ;;
  match returned with
  | Some v => ret (Some v)
  | None =>
      r <- load (regulators data) i ;;
      rc <- do_enable r ;;
      if truthy rc then
        dev_err MSG_ENABLE [ArgS (name data); ArgD i; ArgD rc] ;;
        ret (Some (- EINVAL))
      else
        d <- load (pon_delay_us data) i ;;
        (if truthy d then
           d1 <- load (pon_delay_us data) i ;;
           d2 <- load (pon_delay_us data) i ;;
           do_usleep_range d1 (uint_wrap (2 * d2))
         else ret tt) ;;
        ret None
  end.

(** [for (i = ...; i < data->count; i++)], as the [n] iterations from [i] on
    that are left; the loop is entered with [n = count - i]. *)
Fixpoint enable_loop (data : multi_regulator_data) (n : nat) (i : Z)
  : M (option Z) :=
  match n with
  | O => ret None
  | S n' =>
      r <- enable_body data i ;;
      match r with
      | Some rc => ret (Some rc)
      | None => enable_loop data n' (i + 1)
      end
  end.

Definition multi_regulator_enable : M Z :=
  fun s =>
    match drvdata s with
    | None => None
    | Some data =>
        (if enabled data then
           dev_warn MSG_ALREADY_ENABLED [ArgS (name data)] ;;
           ret 0
         else
           r <- enable_loop data (Z.to_nat (count data)) 0 ;;
           match r with
           | Some rc => ret rc
           | None => store_enabled true ;; ret 0
           end) s
    end.

Definition disable_body (data : multi_regulator_data) (i : Z) : M unit :=
  r <- load (regulators data) i ;;
  rc <- do_disable r ;;
  (if truthy rc then dev_warn MSG_DISABLE [ArgS (name data); ArgD i; ArgD rc] else ret tt) ;;
  d <- load (poff_delay_us data) i ;;
  if truthy d then
    d1 <- load (poff_delay_us data) i ;;
    d2 <- load (poff_delay_us data) i ;;
    do_usleep_range d1 (uint_wrap (2 * d2))
  else ret tt.

Fixpoint disable_loop (data : multi_regulator_data) (n : nat) (i : Z)
  : M unit :=
  match n with
  | O => ret tt
  | S n' => disable_body data i ;; disable_loop data n' (i + 1)
  end.

Definition multi_regulator_disable : M Z :=
  fun s =>
    match drvdata s with
    | None => None
    | Some data =>
        (if negb (enabled data) then
           dev_warn MSG_ALREADY_DISABLED [ArgS (name data)] ;;
           ret 0
         else
           disable_loop data (Z.to_nat (count data)) 0 ;;
           store_enabled false ;;
           ret 0) s
    end.

(** [return (data ? data->enabled : 0);] *)
Definition multi_regulator_is_enabled : M Z :=
  fun s =>
    match drvdata s with
    | None => ret 0 s
    | Some data => ret (if enabled data then 1 else 0) s
    end.

(** ** Reading the driver data *)

(** The entries of index [i], for [0 <= i < count]. *)
Definition nth_uint (a : list Z) (i : Z) : Z := nth (Z.to_nat i) a 0.
Definition reg_at (data : multi_regulator_data) (i : Z) : option regulator :=
  nth (Z.to_nat i) (regulators data) None.
Definition min_at (data : multi_regulator_data) (i : Z) : Z :=
  nth_uint (min_uV data) i.
Definition max_at (data : multi_regulator_data) (i : Z) : Z :=
  nth_uint (max_uV data) i.
Definition pon_at (data : multi_regulator_data) (i : Z) : Z :=
  nth_uint (pon_delay_us data) i.
Definition poff_at (data : multi_regulator_data) (i : Z) : Z :=
  nth_uint (poff_delay_us data) i.

(** The arrays have [count] entries each, as [probe] allocates them. *)
Definition wf_data (data : multi_regulator_data) : Prop :=
  let n := Z.to_nat (count data) in
  length (regulators data) = n /\
  length (min_uV data) = n /\
  length (max_uV data) = n /\
  length (pon_delay_us data) = n /\
  length (poff_delay_us data) = n.

(** The descriptor table: everything but the [enabled] flag. *)
Definition same_config (d1 d2 : multi_regulator_data) : Prop :=
  regulators d1 = regulators d2 /\ name d1 = name d2 /\
  min_uV d1 = min_uV d2 /\ max_uV d1 = max_uV d2 /\
  pon_delay_us d1 = pon_delay_us d2 /\
  poff_delay_us d1 = poff_delay_us d2 /\
  count d1 = count d2.

Definition mkstate (data : multi_regulator_data) (w : world) : state :=
  {| drvdata := Some data; hw := w |}.

(** [i; i+1; ...], [n] indices. *)
Fixpoint range (i : Z) (n : nat) : list Z :=
  match n with
  | O => []
  | S n' => i :: range (i + 1) n'
  end.

(** [0; 1; ...; n-1] *)
Definition indices (n : Z) : list Z := range 0 (Z.to_nat n).

(** ** The sequences the driver is expected to issue *)

(** Is the voltage window of index [i] to be set? *)
Definition voltage_gate (data : multi_regulator_data) (i : Z) : bool :=
  truthy (min_at data i) || truthy (max_at data i).

Definition voltage_calls (data : multi_regulator_data) (i : Z)
  : list (call regulator) :=
  if voltage_gate data i
  then [SetVoltage (reg_at data i) (to_int (min_at data i))
          (to_int (max_at data i))]
  else [].

(** The sleep the driver asks for after a delay [d]: the upper bound is
    the [unsigned int] product [2 * d]. *)
Definition sleep_calls (d : Z) : list (call regulator) :=
  if truthy d then [Sleep d (uint_wrap (2 * d))] else [].

(** The calls of an iteration of enable that goes through. *)
Definition enable_calls (data : multi_regulator_data) (i : Z)
  : list (call regulator) :=
  voltage_calls data i ++ [Enable (reg_at data i)]
    ++ sleep_calls (pon_at data i).

(** The calls of an iteration of disable. *)
Definition disable_calls (data : multi_regulator_data) (i : Z)
  : list (call regulator) :=
  Disable (reg_at data i) :: sleep_calls (poff_at data i).

(** A trace of calls that all returned 0. *)
Definition all_ok (cs : list (call regulator)) : list (event regulator) :=
  map (fun c => Called c 0) cs.

(** The trace of the iteration of enable that fails at index [i]: the
    set-voltage request returned [rc], or (after the set-voltage request, if
    any, returned 0) the enable request did. *)
Inductive enable_failure (data : multi_regulator_data) (i : Z)
  : list (event regulator) -> Prop :=
| voltage_failed rc :
    voltage_gate data i = true -> rc <> 0 ->
    enable_failure data i
      [Called (SetVoltage (reg_at data i) (to_int (min_at data i))
                 (to_int (max_at data i))) rc;
       Logged KERN_ERR MSG_SET_VOLTAGE
         [ArgS (name data); ArgD i; ArgD rc]]
| enable_failed rc :
    rc <> 0 ->
    enable_failure data i
      (all_ok (voltage_calls data i) ++
       [Called (Enable (reg_at data i)) rc;
        Logged KERN_ERR MSG_ENABLE [ArgS (name data); ArgD i; ArgD rc]]).

(** One iteration of enable in terms of the core alone. *)
Definition enable_iter (data : multi_regulator_data) (i : Z) (w : world)
  : option Z * world * list (event regulator) :=
  let r := reg_at data i in
  let lo := to_int (min_at data i) in
  let hi := to_int (max_at data i) in
  let '(rc1, w1) :=
    if voltage_gate data i then regulator_set_voltage r lo hi w else (0, w) in
  if truthy rc1 then
    (Some (- EINVAL), w1,
     [Called (SetVoltage r lo hi) rc1;
      Logged KERN_ERR MSG_SET_VOLTAGE [ArgS (name data); ArgD i; ArgD rc1]])
  else
    let t1 := if voltage_gate data i
              then [Called (SetVoltage r lo hi) rc1] else [] in
    let '(rc2, w2) := regulator_enable r w1 in
    if truthy rc2 then
      (Some (- EINVAL), w2,
       t1 ++ [Called (Enable r) rc2;
              Logged KERN_ERR MSG_ENABLE [ArgS (name data); ArgD i; ArgD rc2]])
    else
      let d := pon_at data i in
      if truthy d then
        (None, usleep_range d (uint_wrap (2 * d)) w2,
         t1 ++ [Called (Enable r) rc2;
                Called (Sleep d (uint_wrap (2 * d))) 0])
      else (None, w2, t1 ++ [Called (Enable r) rc2]).

(** One iteration of disable in terms of the core alone. *)
Definition disable_iter (data : multi_regulator_data) (i : Z) (w : world)
  : world * list (event regulator) :=
  let r := reg_at data i in
  let '(rc, w1) := regulator_disable r w in
  let t1 :=
    Called (Disable r) rc ::
    (if truthy rc
     then [Logged KERN_WARNING MSG_DISABLE [ArgS (name data); ArgD i; ArgD rc]]
     else []) in
  let d := poff_at data i in
  if truthy d then
    (usleep_range d (uint_wrap (2 * d)) w1,
     t1 ++ [Called (Sleep d (uint_wrap (2 * d))) 0])
  else (w1, t1).

(** The set-voltage request of index [i], issued in the core state [w],
    fails. *)
Definition set_voltage_fails (data : multi_regulator_data) (i : Z) (w : world)
  : Prop :=
  voltage_gate data i = true /\
  fst (regulator_set_voltage (reg_at data i) (to_int (min_at data i))
         (to_int (max_at data i)) w) <> 0.

(** The enable request of index [i] fails, in an iteration begun in the
    core state [w]: the set-voltage request, if there is one, returns 0 and
    then the enable request does not. *)
Definition enable_fails (data : multi_regulator_data) (i : Z) (w : world)
  : Prop :=
  let sv := regulator_set_voltage (reg_at data i) (to_int (min_at data i))
              (to_int (max_at data i)) w in
  if voltage_gate data i
  then fst sv = 0 /\ fst (regulator_enable (reg_at data i) (snd sv)) <> 0
  else fst (regulator_enable (reg_at data i) w) <> 0.

(** The state a call leaves the core in, and the state after a list of
    calls made one after the other. *)
Definition perform (c : call regulator) (w : world) : world :=
  match c with
  | SetVoltage r lo hi => snd (regulator_set_voltage r lo hi w)
  | Enable r => snd (regulator_enable r w)
  | Disable r => snd (regulator_disable r w)
  | Sleep lo hi => usleep_range lo hi w
  end.

Definition replay (cs : list (call regulator)) (w : world) : world :=
  fold_left (fun w0 c => perform c w0) cs w.

(** The state of the core when the supplies of the indices below [i] have
    been switched on, starting from [w]. *)
Definition core_before (data : multi_regulator_data) (i : Z) (w : world)
  : world :=
  replay (flat_map (enable_calls data) (indices i)) w.

(** A request of index [i] fails when the supplies below [i] are on. *)
Definition request_fails (data : multi_regulator_data) (i : Z) (w : world)
  : Prop :=
  set_voltage_fails data i (core_before data i w) \/
  enable_fails data i (core_before data i w).

(** ** Construction: [multi_regulator_probe] *)

(** What [probe] reads from its environment: the platform device with its
    device-tree node, the allocator, the supply lookup and the registration
    with the regulator core. *)
Class Platform : Type := {
  pdev_name : string;
  (** [pdev->dev.of_node] is not NULL *)
  of_node : bool;
  of_property_count_strings : string -> Z;
  (** [Some s]: returns 0 and stores [s]; [None]: returns an error *)
  of_property_read_string_index : string -> Z -> option string;
  (** [Some v]: returns 0 and stores [v]; [None]: returns an error and
      leaves the destination as it was *)
  of_property_read_u32_index : string -> Z -> option Z;
  (** [inl e] is [ERR_PTR(e)], [inr p] a regular pointer *)
  devm_regulator_get : string -> Z + option regulator;
  (** the six [devm_kzalloc] calls: [data], then [name] and the arrays *)
  devm_kzalloc_data : bool;
  devm_kzalloc_arrays : bool;
  (** [of_get_regulator_init_data] is not NULL *)
  of_get_regulator_init_data : bool;
  (** 0, or [PTR_ERR] of the result *)
  devm_regulator_register : multi_regulator_data -> Z
}.

Context {platform : Platform}.

(** [a[i] = v], for [i] inside the array. *)
Fixpoint array_set {A} (a : list A) (i : nat) (v : A) : list A :=
  match a, i with
  | [], _ => []
  | _ :: a', O => v :: a'
  | x :: a', S i' => x :: array_set a' i' v
  end.

(** [of_property_read_u32_index(node, prop, i, &a[i])] *)
Definition read_u32_into (prop : string) (i : Z) (a : list Z) : list Z :=
  match of_property_read_u32_index prop i with
  | Some v => array_set a (Z.to_nat i) v
  | None => a
  end.

Definition with_regulator (data : multi_regulator_data) (i : Z)
    (r : option regulator) : multi_regulator_data :=
  {| regulators := array_set (regulators data) (Z.to_nat i) r;
     name := name data;
     min_uV := min_uV data; max_uV := max_uV data;
     pon_delay_us := pon_delay_us data; poff_delay_us := poff_delay_us data;
     count := count data; enabled := enabled data |}.

(** One iteration of the parsing loop; both [continue]s leave the voltage
    window and the delays of the index as [devm_kzalloc] zeroed them. *)
Definition probe_body (data : multi_regulator_data) (i : Z)
  : multi_regulator_data * list (event regulator) :=
  match of_property_read_string_index "supply-names" i with
  | None =>
      (data,
       [Logged KERN_ERR "cannot read supply-names index %d" [ArgD i]])
  | Some reg_name =>
      match devm_regulator_get reg_name with
      | inl _ =>
          (with_regulator data i None,
           [Logged KERN_ERR "cannot get regulator %s-supply" [ArgS reg_name]])
      | inr r =>
          let data1 := with_regulator data i r in
          let data2 :=
            {| regulators := regulators data1; name := name data1;
               min_uV := read_u32_into "min-microvolt" i (min_uV data1);
               max_uV := read_u32_into "max-microvolt" i (max_uV data1);
               pon_delay_us :=
                 read_u32_into "power-on-delay-us" i (pon_delay_us data1);
               poff_delay_us :=
                 read_u32_into "power-off-delay-us" i (poff_delay_us data1);
               count := count data1; enabled := enabled data1 |} in
          (data2,
           [Logged KERN_DEBUG "i=%d => %s min %u max %u pon %u poff %u"
              [ArgD i; ArgS reg_name;
               ArgD (nth_uint (min_uV data2) i);
               ArgD (nth_uint (max_uV data2) i);
               ArgD (nth_uint (pon_delay_us data2) i);
               ArgD (nth_uint (poff_delay_us data2) i)]])
      end
  end.

Fixpoint probe_loop (data : multi_regulator_data) (n : nat) (i : Z)
  : multi_regulator_data * list (event regulator) :=
  match n with
  | O => (data, [])
  | S n' =>
      let (data1, t1) := probe_body data i in
      let (data2, t2) := probe_loop data1 n' (i + 1) in
      (data2, t1 ++ t2)
  end.

(** The return code, the driver data handed to the regulator core on
    success, and the diagnostics. *)
Definition multi_regulator_probe
  : Z * option multi_regulator_data * list (event regulator) :=
  if negb of_node then
    (- EINVAL, None, [Logged KERN_ERR "node missing" []])
  else
    let cnt := of_property_count_strings "supply-names" in
    if cnt <=? 0 then
      (- EINVAL, None, [Logged KERN_ERR "invalid number of inputs" []])
    else if negb devm_kzalloc_data then
      (- ENOMEM, None, [Logged KERN_ERR "failed to alloc data" []])
    else if negb devm_kzalloc_arrays then
      (- ENOMEM, None, [Logged KERN_ERR "failed to alloc arrays" []])
    else
      let n := Z.to_nat cnt in
      let data0 :=
        {| regulators := repeat None n; name := pdev_name;
           min_uV := repeat 0 n; max_uV := repeat 0 n;
           pon_delay_us := repeat 0 n; poff_delay_us := repeat 0 n;
           count := cnt; enabled := false |} in
      let (data, t) := probe_loop data0 n 0 in
      if negb of_get_regulator_init_data then (- EINVAL, None, t)
      else
        let rc := devm_regulator_register data in
        if truthy rc then
          (rc, None, t ++ [Logged KERN_ERR "failed to register: %d" [ArgD rc]])
        else
          (0, Some data,
           t ++ [Logged KERN_INFO "probed (%s, %d supplies)"
                   [ArgS (name data); ArgD cnt]]).

(** The supply of index [i] could not be resolved: its name could not be
    read, or [devm_regulator_get] returned an error pointer. *)
Definition resolution_failed (i : Z) : bool :=
  match of_property_read_string_index "supply-names" i with
  | None => true
  | Some reg_name =>
      match devm_regulator_get reg_name with
      | inl _ => true
      | inr _ => false
      end
  end.

(** The entries of index [i] are as [devm_kzalloc] left them. *)
Definition blank (data : multi_regulator_data) (i : Z) : Prop :=
  reg_at data i = None /\ min_at data i = 0 /\ max_at data i = 0 /\
  pon_at data i = 0 /\ poff_at data i = 0.

(** What the device tree says of index [i]: the pointer [probe] keeps, and
    the value of a [u32] property that it keeps (0 when the supply is not
    resolved or the property cannot be read). *)
Definition dt_regulator (i : Z) : option regulator :=
  match of_property_read_string_index "supply-names" i with
  | None => None
  | Some reg_name =>
      match devm_regulator_get reg_name with
      | inl _ => None
      | inr r => r
      end
  end.

Definition dt_u32 (prop : string) (i : Z) : Z :=
  if resolution_failed i then 0
  else match of_property_read_u32_index prop i with
       | Some v => v
       | None => 0
       end.

(** The entries of index [i] are what the device tree says. *)
Definition parsed (data : multi_regulator_data) (i : Z) : Prop :=
  reg_at data i = dt_regulator i /\
  min_at data i = dt_u32 "min-microvolt" i /\
  max_at data i = dt_u32 "max-microvolt" i /\
  pon_at data i = dt_u32 "power-on-delay-us" i /\
  poff_at data i = dt_u32 "power-off-delay-us" i.

(** ** The operations table *)

(** [multi_regulator_ops] *)
Definition multi_regulator_ops (op : regulator_op) : M Z :=
  match op with
  | OP_enable => multi_regulator_enable
  | OP_disable => multi_regulator_disable
  | OP_is_enabled => multi_regulator_is_enabled
  end.

(** The regulator core calling operations of the table one after the
    other; the result is the list of their return values. *)
Fixpoint call_ops (ops : list regulator_op) : M (list Z) :=
  match ops with
  | [] => ret []
  | op :: rest =>
      rc <- multi_regulator_ops op ;;
      rcs <- call_ops rest ;;
      ret (rc :: rcs)
  end.

(** The trace of an iteration of disable whose request returns [rc]. *)
Definition disable_block (data : multi_regulator_data) (irc : Z * Z)
  : list (event regulator) :=
  let (i, rc) := irc in
  Called (Disable (reg_at data i)) rc ::
  (if rc =? 0 then []
   else [Logged KERN_WARNING MSG_DISABLE [ArgS (name data); ArgD i; ArgD rc]])
  ++ all_ok (sleep_calls (poff_at data i)).

End Driver.

(** ** A test bench *)

(** Concrete instances of the interfaces, for running the driver: supplies
    are numbered, the state of the core is the time slept so far (every
    sleep lasting its lower bound), and a request fails with [-EIO] on the
    pointers a predicate picks. *)
Module Bench.

Definition supply : Type := nat.
Definition clock : Type := Z.
Definition EIO : Z := 5.

Definition answer (bad : option supply -> bool) (r : option supply) : Z :=
  if bad r then - EIO else 0.

Definition bench_core (bad_voltage bad_enable bad_disable
    : option supply -> bool) : RegulatorCore supply clock :=
  {| regulator_set_voltage r lo hi w := (answer bad_voltage r, w);
     regulator_enable r w := (answer bad_enable r, w);
     regulator_disable r w := (answer bad_disable r, w);
     usleep_range lo hi w := w + lo |}.

Definition nobody : option supply -> bool := fun _ => false.
Definition only (n : supply) : option supply -> bool :=
  fun r => match r with Some m => Nat.eqb n m | None => false end.
Definition null_pointer : option supply -> bool :=
  fun r => match r with Some _ => false | None => true end.

(** Every request succeeds. *)
Definition healthy : RegulatorCore supply clock :=
  bench_core nobody nobody nobody.
(** Supply 1 cannot be enabled. *)
Definition enable_1_fails : RegulatorCore supply clock :=
  bench_core nobody (only 1%nat) nobody.
(** Supply 1 cannot be disabled. *)
Definition disable_1_fails : RegulatorCore supply clock :=
  bench_core nobody nobody (only 1%nat).
(** The core rejects the NULL pointer. *)
Definition rejects_null : RegulatorCore supply clock :=
  bench_core null_pointer null_pointer null_pointer.

(** Three supplies; the second has no voltage window and no delays. *)
Definition rail3 : multi_regulator_data :=
  {| regulators := [Some 0%nat; Some 1%nat; Some 2%nat];
     name := "vdd-cam";
     min_uV := [1000000; 0; 1800000];
     max_uV := [1100000; 0; 1800000];
     pon_delay_us := [500; 0; 10];
     poff_delay_us := [200; 0; 0];
     count := 3;
     enabled := false |}.

Definition rail3_on : multi_regulator_data := set_enabled true rail3.

(** One supply with a voltage window above 2^31 microvolts. *)
Definition high_rail : multi_regulator_data :=
  {| regulators := [Some 0%nat];
     name := "vdd-high";
     min_uV := [3000000000];
     max_uV := [3300000000];
     pon_delay_us := [0];
     poff_delay_us := [0];
     count := 1;
     enabled := false |}.

(** One supply with a power-on delay of 2^31 microseconds. *)
Definition slow_rail : multi_regulator_data :=
  {| regulators := [Some 0%nat];
     name := "vdd-slow";
     min_uV := [0];
     max_uV := [0];
     pon_delay_us := [2147483648];
     poff_delay_us := [2147483648];
     count := 1;
     enabled := false |}.

(** A device-tree node with two supplies, of which "vana" cannot be got:
<<
    supply-names = "vana", "vdig";
    min-microvolt = <2800000 1200000>;
    max-microvolt = <2800000 1200000>;
    power-on-delay-us = <100 50>;
>> *)
Definition board : @Platform supply :=
  {| pdev_name := "vdd-cam";
     of_node := true;
     of_property_count_strings prop :=
       if String.eqb prop "supply-names" then 2 else - EINVAL;
     of_property_read_string_index prop i :=
       if String.eqb prop "supply-names" then
         if i =? 0 then Some "vana"%string
         else if i =? 1 then Some "vdig"%string else None
       else None;
     of_property_read_u32_index prop i :=
       if String.eqb prop "min-microvolt" || String.eqb prop "max-microvolt"
       then if i =? 0 then Some 2800000
            else if i =? 1 then Some 1200000 else None
       else if String.eqb prop "power-on-delay-us"
       then if i =? 0 then Some 100
            else if i =? 1 then Some 50 else None
       else None;
     devm_regulator_get reg_name :=
       if String.eqb reg_name "vana" then inl (- 19) else inr (Some 1%nat);
     devm_kzalloc_data := true;
     devm_kzalloc_arrays := true;
     of_get_regulator_init_data := true;
     devm_regulator_register _ := 0 |}.

(** A node without the "supply-names" property. *)
Definition bare_board : @Platform supply :=
  {| pdev_name := "vdd-none";
     of_node := true;
     of_property_count_strings _ := - EINVAL;
     of_property_read_string_index _ _ := None;
     of_property_read_u32_index _ _ := None;
     devm_regulator_get _ := inl (- 19);
     devm_kzalloc_data := true;
     devm_kzalloc_arrays := true;
     of_get_regulator_init_data := true;
     devm_regulator_register _ := 0 |}.

(** What [probe] builds from [board]. *)
Definition degraded_rail : multi_regulator_data :=
  {| regulators := [None; Some 1%nat];
     name := "vdd-cam";
     min_uV := [0; 1200000];
     max_uV := [0; 1200000];
     pon_delay_us := [0; 50];
     poff_delay_us := [0; 0];
     count := 2;
     enabled := false |}.

End Bench.

(** * Properties *)

Section DriverFacts.

Context {regulator world : Type} {core : RegulatorCore regulator world}.

Implicit Types (data : @multi_regulator_data regulator)
  (s : @state regulator world) (w : world) (i : Z).

(** ** Array reads inside the bounds *)

Lemma nth_error_in_range {A} (a : list A) (i : Z) (dflt : A) :
  0 <= i -> (Z.to_nat i < length a)%nat ->
  (i <? 0) = false /\ nth_error a (Z.to_nat i) = Some (nth (Z.to_nat i) a dflt).
Proof.
  intros Hi Hlen. split.
  - apply Z.ltb_ge. exact Hi.
  - apply nth_error_nth'. exact Hlen.
Qed.

Lemma index_in_range data i :
  wf_data data -> 0 <= i < count data ->
  (Z.to_nat i < Z.to_nat (count data))%nat.
Proof. intros _ Hi. lia. Qed.

Ltac in_range data i Hwf Hi :=
  let Hn := fresh "Hn" in
  pose proof (index_in_range data i Hwf Hi) as Hn;
  destruct Hwf as (Hr & Hlo & Hhi & Hon & Hoff);
  let go a dflt H :=
    (destruct (nth_error_in_range a i dflt (proj1 Hi)) as [? ?];
     [rewrite H; exact Hn|]) in
  go (regulators data) (@None regulator) Hr;
  go (min_uV data) 0 Hlo;
  go (max_uV data) 0 Hhi;
  go (pon_delay_us data) 0 Hon;
  go (poff_delay_us data) 0 Hoff.

(** ** One iteration *)

Lemma enable_body_iter data i s :
  wf_data data -> 0 <= i < count data ->
  enable_body data i s =
  Some (let '(r, w, t) := enable_iter data i (hw s) in
        (r, {| drvdata := drvdata s; hw := w |}, t)).
Proof.
  intros Hwf Hi. in_range data i Hwf Hi.
  unfold enable_body, enable_iter, voltage_gate, min_at, max_at, pon_at,
    reg_at, nth_uint, bind, load, ret, do_set_voltage, do_enable,
    do_usleep_range, call_ext, dev_err.
  repeat match goal with H : (i <? 0) = false |- _ => rewrite H; clear H end.
  repeat match goal with H : nth_error _ _ = Some _ |- _ => rewrite H; clear H end.
  destruct s as [dd w]; cbn [hw drvdata].
  destruct (truthy (nth (Z.to_nat i) (min_uV data) 0)) eqn:Elo; cbn.
  all: try destruct (truthy (nth (Z.to_nat i) (max_uV data) 0)) eqn:Ehi; cbn.
  all: try destruct (regulator_set_voltage _ _ _ w) as [rc1 w1]; cbn.
  all: try destruct (truthy rc1) eqn:Erc1; cbn.
  all: try reflexivity.
  all: match goal with
       | |- context [regulator_enable ?r ?w0] =>
           destruct (regulator_enable r w0) as [rc2 w2]; cbn
       end.
  all: destruct (truthy rc2) eqn:Erc2; cbn; try reflexivity.
  all: destruct (truthy (nth (Z.to_nat i) (pon_delay_us data) 0)); reflexivity.
Qed.

Lemma disable_body_iter data i s :
  wf_data data -> 0 <= i < count data ->
  disable_body data i s =
  Some (let '(w, t) := disable_iter data i (hw s) in
        (tt, {| drvdata := drvdata s; hw := w |}, t)).
Proof.
  intros Hwf Hi. in_range data i Hwf Hi.
  unfold disable_body, disable_iter, poff_at, reg_at, nth_uint, bind, load,
    ret, do_disable, do_usleep_range, call_ext, dev_warn.
  repeat match goal with H : (i <? 0) = false |- _ => rewrite H; clear H end.
  repeat match goal with H : nth_error _ _ = Some _ |- _ => rewrite H; clear H end.
  destruct s as [dd w]; cbn [hw drvdata].
  destruct (regulator_disable _ w) as [rc w1]; cbn.
  destruct (truthy rc); cbn;
    destruct (truthy (nth (Z.to_nat i) (poff_delay_us data) 0)); reflexivity.
Qed.

Lemma truthy_false x : truthy x = false -> x = 0.
Proof. unfold truthy. intros H. apply negb_false_iff, Z.eqb_eq in H. exact H. Qed.

Lemma truthy_true x : truthy x = true -> x <> 0.
Proof. unfold truthy. intros H. apply negb_true_iff, Z.eqb_neq in H. exact H. Qed.

Lemma truthy_nonzero x : x <> 0 -> truthy x = true.
Proof. unfold truthy. intros H. apply negb_true_iff, Z.eqb_neq. exact H. Qed.

Lemma calls_app (t1 t2 : list (event regulator)) :
  calls (t1 ++ t2) = calls t1 ++ calls t2.
Proof. unfold calls. apply flat_map_app. Qed.

Lemma calls_all_ok (cs : list (call regulator)) : calls (all_ok cs) = cs.
Proof.
  induction cs as [|c cs IH]; [reflexivity|].
  cbn. f_equal. exact IH.
Qed.

Lemma all_ok_app (c1 c2 : list (call regulator)) :
  all_ok (c1 ++ c2) = all_ok c1 ++ all_ok c2.
Proof. unfold all_ok. apply map_app. Qed.

(** An iteration of enable either goes through, all its calls returning 0,
    or returns [-EINVAL] after the request that failed. *)
Lemma enable_iter_cases data i w :
  (exists w', enable_iter data i w = (None, w', all_ok (enable_calls data i)))
  \/ (exists w' tf, enable_iter data i w = (Some (- EINVAL), w', tf)
                    /\ enable_failure data i tf).
Proof.
  unfold enable_iter, enable_calls, voltage_calls, sleep_calls.
  destruct (voltage_gate data i) eqn:G.
  - destruct (regulator_set_voltage _ _ _ w) as [rc1 w1].
    destruct (truthy rc1) eqn:E1.
    + right. eexists _, _. split; [reflexivity|].
      apply voltage_failed; [exact G | apply truthy_true; exact E1].
    + apply truthy_false in E1. subst rc1.
      destruct (regulator_enable _ w1) as [rc2 w2].
      destruct (truthy rc2) eqn:E2.
      * right. eexists _, _. split; [reflexivity|].
        pose proof (enable_failed data i rc2 (truthy_true _ E2)) as F.
        unfold voltage_calls in F. rewrite G in F. exact F.
      * apply truthy_false in E2. subst rc2. left.
        destruct (truthy (pon_at data i)); eexists; reflexivity.
  - cbn [truthy Z.eqb negb].
    destruct (regulator_enable _ w) as [rc2 w2].
    destruct (truthy rc2) eqn:E2.
    + right. eexists _, _. split; [reflexivity|].
      pose proof (enable_failed data i rc2 (truthy_true _ E2)) as F.
      unfold voltage_calls in F. rewrite G in F. exact F.
    + apply truthy_false in E2. subst rc2. left.
      destruct (truthy (pon_at data i)); eexists; reflexivity.
Qed.

Lemma disable_iter_calls data i w :
  calls (snd (disable_iter data i w)) = disable_calls data i.
Proof.
  unfold disable_iter, disable_calls, sleep_calls.
  destruct (regulator_disable _ w) as [rc w1].
  destruct (truthy rc); destruct (truthy (poff_at data i)); reflexivity.
Qed.

(** The calls of a failing iteration are an initial part of the calls of
    the iteration, up to the request that failed. *)
Lemma enable_failure_calls data i tf :
  enable_failure data i tf ->
  exists rest, enable_calls data i = calls tf ++ rest.
Proof.
  intros [rc G Hrc | rc Hrc]; unfold enable_calls, voltage_calls.
  - rewrite G. cbn. eexists. reflexivity.
  - rewrite calls_app, calls_all_ok. cbn.
    exists (sleep_calls (pon_at data i)).
    destruct (voltage_gate data i); reflexivity.
Qed.

Lemma enable_calls_no_disable data i :
  Forall (fun c => is_disable c = false) (enable_calls data i).
Proof.
  unfold enable_calls, voltage_calls, sleep_calls.
  destruct (voltage_gate data i); destruct (truthy (pon_at data i));
    repeat constructor.
Qed.

(** ** The loops *)

Lemma range_app i n m :
  range i (n + m) = range i n ++ range (i + Z.of_nat n) m.
Proof.
  revert i. induction n as [|n IH]; intros i.
  - cbn. f_equal. lia.
  - cbn [range Nat.add app]. rewrite IH. do 3 f_equal. lia.
Qed.

Lemma range_bounds i n j : In j (range i n) -> i <= j < i + Z.of_nat n.
Proof.
  revert i. induction n as [|n IH]; intros i; cbn [range In].
  - intros [].
  - intros [<- | H]; [lia|]. apply IH in H. lia.
Qed.

Lemma range_in i n j : i <= j < i + Z.of_nat n -> In j (range i n).
Proof.
  revert i. induction n as [|n IH]; intros i H; [lia|].
  cbn [range In]. destruct (Z.eq_dec i j) as [E|E]; [left; exact E|].
  right. apply IH. lia.
Qed.

Lemma range_sorted i n : StronglySorted Z.lt (range i n).
Proof.
  revert i. induction n as [|n IH]; intros i; cbn [range]; constructor.
  - apply IH.
  - apply Forall_forall. intros j Hj. apply range_bounds in Hj. lia.
Qed.

(** [indices n] is 0, 1, ..., n-1 in ascending order. *)
Lemma indices_in n j : In j (indices n) <-> 0 <= j < n.
Proof.
  unfold indices. split; intros H.
  - apply range_bounds in H. lia.
  - apply range_in. lia.
Qed.

Lemma enable_loop_trace data n i s :
  wf_data data -> 0 <= i -> n = O \/ i + Z.of_nat n <= count data ->
  exists r w t,
    enable_loop data n i s = Some (r, {| drvdata := drvdata s; hw := w |}, t)
    /\ ((r = None /\ t = all_ok (flat_map (enable_calls data) (range i n)))
        \/ (r = Some (- EINVAL) /\
            exists k tf, (k < n)%nat /\
              t = all_ok (flat_map (enable_calls data) (range i k)) ++ tf /\
              enable_failure data (i + Z.of_nat k) tf)).
Proof.
  intros Hwf. revert i s.
  induction n as [|n IH]; intros i s Hi [Hn|Hn]; try discriminate.
  1-2: exists None, (hw s), []; destruct s; split; [reflexivity|]; left; auto.
  - cbn [enable_loop]. unfold bind at 1.
    rewrite (enable_body_iter data i s Hwf) by lia.
    destruct (enable_iter_cases data i (hw s)) as [[w1 E] | (w1 & tf & E & F)];
      rewrite E.
    + destruct (IH (i + 1) {| drvdata := drvdata s; hw := w1 |})
        as (r & w2 & t & Hrun & Ht); [lia | lia |].
      rewrite Hrun. cbn [drvdata]. exists r, w2, (all_ok (enable_calls data i) ++ t).
      split; [reflexivity|].
      destruct Ht as [[-> ->] | [-> (k & tf & Hk & -> & F)]].
      * left. split; [reflexivity|]. cbn [range flat_map].
        rewrite all_ok_app. reflexivity.
      * right. split; [reflexivity|]. exists (S k), tf.
        split; [lia|]. split.
        -- cbn [range flat_map]. rewrite all_ok_app, app_assoc. reflexivity.
        -- replace (i + Z.of_nat (S k)) with (i + 1 + Z.of_nat k) by lia.
           exact F.
    + cbn. exists (Some (- EINVAL)), w1, (tf ++ []).
      split; [reflexivity|]. right. split; [reflexivity|].
      exists O, tf. split; [lia|]. split.
      * cbn. apply app_nil_r.
      * replace (i + Z.of_nat 0) with i by lia. exact F.
Qed.

Lemma enable_loop_app data n m i s s1 t1 :
  enable_loop data n i s = Some (None, s1, t1) ->
  enable_loop data (n + m) i s =
  match enable_loop data m (i + Z.of_nat n) s1 with
  | None => None
  | Some (r, s2, t2) => Some (r, s2, t1 ++ t2)
  end.
Proof.
  revert i s s1 t1. induction n as [|n IH]; intros i s s1 t1.
  - cbn. intros [= <- <-]. replace (i + 0) with i by lia.
    destruct (enable_loop data m i s) as [[[r s2] t2]|]; reflexivity.
  - cbn [enable_loop Nat.add]. unfold bind.
    destruct (enable_body data i s) as [[[[rc|] s0] t0]|]; try discriminate.
    destruct (enable_loop data n (i + 1) s0) as [[[r' s'] t']|] eqn:E;
      try discriminate.
    intros H. injection H as -> -> <-.
    rewrite (IH _ _ _ _ E).
    replace (i + 1 + Z.of_nat n) with (i + Z.of_nat (S n)) by lia.
    destruct (enable_loop data m _ s1) as [[[r s2] t2]|]; [|reflexivity].
    rewrite app_assoc. reflexivity.
Qed.

Lemma disable_loop_trace data n i s :
  wf_data data -> 0 <= i -> n = O \/ i + Z.of_nat n <= count data ->
  exists w t,
    disable_loop data n i s = Some (tt, {| drvdata := drvdata s; hw := w |}, t)
    /\ calls t = flat_map (disable_calls data) (range i n).
Proof.
  intros Hwf. revert i s.
  induction n as [|n IH]; intros i s Hi [Hn|Hn]; try discriminate.
  1-2: exists (hw s), []; destruct s; split; reflexivity.
  - cbn [disable_loop]. unfold bind at 1.
    rewrite (disable_body_iter data i s Hwf) by lia.
    pose proof (disable_iter_calls data i (hw s)) as Hc.
    destruct (disable_iter data i (hw s)) as [w1 t1]. cbn [snd] in Hc.
    destruct (IH (i + 1) {| drvdata := drvdata s; hw := w1 |})
      as (w2 & t & Hrun & Ht); [lia | right; lia |].
    rewrite Hrun. cbn [drvdata]. exists w2, (t1 ++ t).
    split; [reflexivity|].
    rewrite calls_app, Hc, Ht. reflexivity.
Qed.

(** ** The whole operations *)

Lemma count_iterations data :
  Z.to_nat (count data) = O \/
  0 + Z.of_nat (Z.to_nat (count data)) <= count data.
Proof. destruct (Z.le_gt_cases (count data) 0); [left | right]; lia. Qed.

(** A call of enable on a disabled rail: either every iteration goes
    through and the flag is set, or the iteration [k] fails and the data is
    left as it was. *)
Lemma enable_run data w :
  wf_data data -> enabled data = false ->
  exists rc data' w' t,
    multi_regulator_enable (mkstate data w) = Some (rc, mkstate data' w', t)
    /\ ((rc = 0 /\ data' = set_enabled true data /\
         t = all_ok (flat_map (enable_calls data) (indices (count data))))
        \/ (rc = - EINVAL /\ data' = data /\
            exists k tf, 0 <= k < count data /\
              t = all_ok (flat_map (enable_calls data) (indices k)) ++ tf /\
              enable_failure data k tf)).
Proof.
  intros Hwf Hen.
  destruct (enable_loop_trace data (Z.to_nat (count data)) 0 (mkstate data w)
              Hwf (Z.le_refl 0) (count_iterations data))
    as (r & w' & t & Hrun & Ht).
  unfold multi_regulator_enable. cbn [mkstate drvdata]. rewrite Hen.
  unfold bind at 1. rewrite Hrun.
  destruct Ht as [[-> ->] | [-> (k & tf & Hk & -> & F)]].
  - exists 0, (set_enabled true data), w', 
      (all_ok (flat_map (enable_calls data) (indices (count data)))).
    split.
    + cbn. rewrite !app_nil_r. reflexivity.
    + left. auto.
  - exists (- EINVAL), data, w', 
      (all_ok (flat_map (enable_calls data) (range 0 k)) ++ tf).
    split.
    + cbn. rewrite !app_nil_r. reflexivity.
    + right. split; [reflexivity|]. split; [reflexivity|].
      exists (Z.of_nat k), tf. unfold indices. rewrite Nat2Z.id.
      split; [lia|]. split; [reflexivity|]. exact F.
Qed.

(** A call of disable on an enabled rail always runs every iteration. *)
Lemma disable_run data w :
  wf_data data -> enabled data = true ->
  exists w' t,
    multi_regulator_disable (mkstate data w) =
      Some (0, mkstate (set_enabled false data) w', t)
    /\ calls t = flat_map (disable_calls data) (indices (count data)).
Proof.
  intros Hwf Hen.
  destruct (disable_loop_trace data (Z.to_nat (count data)) 0 (mkstate data w)
              Hwf (Z.le_refl 0) (count_iterations data))
    as (w' & t & Hrun & Ht).
  unfold multi_regulator_disable. cbn [mkstate drvdata]. rewrite Hen.
  cbn [negb]. unfold bind at 1. rewrite Hrun.
  exists w', t. split; [|exact Ht].
  cbn. rewrite !app_nil_r. reflexivity.
Qed.

Lemma same_config_set_enabled b data : same_config data (set_enabled b data).
Proof. repeat split. Qed.

Lemma same_config_refl data : same_config data data.
Proof. repeat split. Qed.

Lemma enable_when_enabled data w :
  enabled data = true ->
  multi_regulator_enable (mkstate data w) =
  Some (0, mkstate data w,
        [Logged KERN_WARNING MSG_ALREADY_ENABLED [ArgS (name data)]]).
Proof.
  intros Hen. unfold multi_regulator_enable. cbn [mkstate drvdata].
  rewrite Hen. reflexivity.
Qed.

Lemma disable_when_disabled data w :
  enabled data = false ->
  multi_regulator_disable (mkstate data w) =
  Some (0, mkstate data w,
        [Logged KERN_WARNING MSG_ALREADY_DISABLED [ArgS (name data)]]).
Proof.
  intros Hen. unfold multi_regulator_disable. cbn [mkstate drvdata].
  rewrite Hen. reflexivity.
Qed.

Lemma is_enabled_run s :
  multi_regulator_is_enabled s =
  Some (match drvdata s with
        | Some data => if enabled data then 1 else 0
        | None => 0
        end, s, []).
Proof.
  unfold multi_regulator_is_enabled. destruct (drvdata s); reflexivity.
Qed.

(** ** Redundant calls *)

(** C4: enable on a rail that is already enabled returns 0, leaves the data
    (so the flag, true) and the regulator core as they were and issues no
    call, only the "already enabled" warning; disable on a rail that is
    already disabled does the same with the "already disabled" warning. *)
Theorem redundant_call_is_noop data w :
  (enabled data = true ->
   exists t,
     multi_regulator_enable (mkstate data w) = Some (0, mkstate data w, t)
     /\ t = [Logged KERN_WARNING MSG_ALREADY_ENABLED [ArgS (name data)]]
     /\ calls t = [])
  /\
  (enabled data = false ->
   exists t,
     multi_regulator_disable (mkstate data w) = Some (0, mkstate data w, t)
     /\ t = [Logged KERN_WARNING MSG_ALREADY_DISABLED [ArgS (name data)]]
     /\ calls t = []).
Proof.
  split; intros Hen; eexists; (split; [|split; reflexivity]).
  - apply enable_when_enabled. exact Hen.
  - apply disable_when_disabled. exact Hen.
Qed.

(** ** The accessor *)

(** C9: is_enabled always returns, with the flag as an [int] (1 or 0) when
    the driver data is there and 0 when it is NULL; the state is unchanged
    and nothing is called or logged. *)
Theorem is_enabled_pure_total s :
  multi_regulator_is_enabled s =
  Some (match drvdata s with
        | Some data => if enabled data then 1 else 0
        | None => 0
        end, s, []).
Proof. apply is_enabled_run. Qed.

(** ** The descriptor table is read only *)

(** C10: on driver data with [count] entries per array, each of enable,
    disable and is_enabled returns, and the data it leaves has the same
    regulators, name, voltage windows, delays and count as before: at most
    the flag differs (is_enabled changes nothing at all). *)
Theorem operations_frame data w :
  wf_data data ->
  (exists rc data' w' t,
     multi_regulator_enable (mkstate data w) = Some (rc, mkstate data' w', t)
     /\ same_config data data')
  /\
  (exists rc data' w' t,
     multi_regulator_disable (mkstate data w) = Some (rc, mkstate data' w', t)
     /\ same_config data data')
  /\
  (exists rc,
     multi_regulator_is_enabled (mkstate data w) = Some (rc, mkstate data w, [])).
Proof.
  intros Hwf. split; [|split].
  - destruct (enabled data) eqn:Hen.
    + eexists 0, data, w, _.
      split; [apply enable_when_enabled; exact Hen | apply same_config_refl].
    + destruct (enable_run data w Hwf Hen) as (rc & d' & w' & t & Hrun & Hc).
      exists rc, d', w', t. split; [exact Hrun|].
      destruct Hc as [(_ & -> & _) | (_ & -> & _)];
        [apply same_config_set_enabled | apply same_config_refl].
  - destruct (enabled data) eqn:Hen.
    + destruct (disable_run data w Hwf Hen) as (w' & t & Hrun & _).
      exists 0, (set_enabled false data), w', t.
      split; [exact Hrun | apply same_config_set_enabled].
    + eexists 0, data, w, _.
      split; [apply disable_when_disabled; exact Hen | apply same_config_refl].
  - eexists. apply (is_enabled_run (mkstate data w)).
Qed.

(** ** Disable is best effort *)

Lemma disable_requests_of_calls data (l : list Z) :
  filter is_disable (flat_map (disable_calls data) l) =
  map (fun j => Disable (reg_at data j)) l.
Proof.
  induction l as [|j l IH]; [reflexivity|].
  cbn [flat_map map]. rewrite filter_app, IH.
  unfold disable_calls, sleep_calls.
  destruct (truthy (poff_at data j)); reflexivity.
Qed.

(** C2: on an enabled rail, whatever the regulator core answers to the
    disable requests, disable returns 0, leaves the flag false, and has
    issued the disable request of every index 0, ..., count-1, once each. *)
Theorem disable_best_effort data w :
  wf_data data -> enabled data = true ->
  exists w' t,
    multi_regulator_disable (mkstate data w) =
      Some (0, mkstate (set_enabled false data) w', t)
    /\ enabled (set_enabled false data) = false
    /\ filter is_disable (calls t) =
       map (fun j => Disable (reg_at data j)) (indices (count data)).
Proof.
  intros Hwf Hen.
  destruct (disable_run data w Hwf Hen) as (w' & t & Hrun & Hc).
  exists w', t. split; [exact Hrun|]. split; [reflexivity|].
  rewrite Hc. apply disable_requests_of_calls.
Qed.



(** ** Set-voltage requests among the calls *)

Lemma voltage_requests_of_calls data (l : list Z) :
  filter is_set_voltage (flat_map (enable_calls data) l) =
  flat_map (voltage_calls data) l.
Proof.
  induction l as [|j l IH]; [reflexivity|].
  cbn [flat_map]. rewrite filter_app, IH. f_equal.
  unfold enable_calls, voltage_calls, sleep_calls.
  destruct (voltage_gate data j); destruct (truthy (pon_at data j));
    reflexivity.
Qed.

Lemma voltage_calls_explicit data i :
  voltage_calls data i =
  if (min_at data i =? 0) && (max_at data i =? 0) then []
  else [SetVoltage (reg_at data i) (to_int (min_at data i))
          (to_int (max_at data i))].
Proof.
  unfold voltage_calls, voltage_gate, truthy.
  destruct (min_at data i =? 0); destruct (max_at data i =? 0); reflexivity.
Qed.

Lemma indices_succ k :
  0 <= k -> indices (k + 1) = indices k ++ [k].
Proof.
  intros Hk. unfold indices.
  replace (Z.to_nat (k + 1)) with (Z.to_nat k + 1)%nat by lia.
  rewrite range_app. cbn. do 2 f_equal. lia.
Qed.


(** ** Enable fails fast *)

Lemma enable_iter_fails data i w :
  set_voltage_fails data i w \/ enable_fails data i w ->
  exists w' tf,
    enable_iter data i w = (Some (- EINVAL), w', tf) /\
    enable_failure data i tf.
Proof.
  unfold set_voltage_fails, enable_fails.
  intros H.
  destruct (enable_iter_cases data i w) as [[w' E] | F]; [|exact F].
  exfalso. revert E. unfold enable_iter.
  destruct (voltage_gate data i) eqn:G.
  - destruct (regulator_set_voltage _ _ _ w) as [rc1 w1]. cbn [fst snd] in H.
    destruct (truthy rc1) eqn:E1; [discriminate|].
    apply truthy_false in E1.
    destruct H as [[_ H] | [_ H]]; [contradiction|].
    destruct (regulator_enable _ w1) as [rc2 w2]. cbn [fst] in H.
    rewrite (truthy_nonzero _ H). discriminate.
  - destruct H as [[H _] | H]; [discriminate|].
    cbn [truthy Z.eqb negb].
    destruct (regulator_enable _ w) as [rc2 w2]. cbn [fst] in H.
    rewrite (truthy_nonzero _ H). discriminate.
Qed.

Lemma no_disable_in_enable_calls data (l : list Z) :
  Forall (fun c => is_disable c = false) (flat_map (enable_calls data) l).
Proof.
  induction l as [|j l IH]; [constructor|].
  cbn [flat_map]. apply Forall_app. split;
    [apply enable_calls_no_disable | exact IH].
Qed.

(** C1: on a disabled rail, let the iterations of enable before index i go
    through (from the core state w to w_i, with the trace t_i), and let the
    set-voltage request or the enable request of index i fail.  Then enable
    returns -EINVAL, a failure; the driver data is as before, so the flag is
    false; t_i is the calls of the indices below i, all answered 0; what
    follows t_i is the trace tf of the failing iteration, whose calls are an
    initial part of the calls of index i (so nothing is issued for a later
    index, and no sleep after the failure); and no disable request is
    issued at all. *)
Theorem enable_fail_fast data w i w_i t_i :
  wf_data data -> enabled data = false -> 0 <= i < count data ->
  enable_loop data (Z.to_nat i) 0 (mkstate data w)
    = Some (None, mkstate data w_i, t_i) ->
  set_voltage_fails data i w_i \/ enable_fails data i w_i ->
  exists w' tf,
    multi_regulator_enable (mkstate data w)
      = Some (- EINVAL, mkstate data w', t_i ++ tf)
    /\ - EINVAL <> 0
    /\ t_i = all_ok (flat_map (enable_calls data) (indices i))
    /\ enable_failure data i tf
    /\ (exists rest, enable_calls data i = calls tf ++ rest)
    /\ Forall (fun c => is_disable c = false) (calls (t_i ++ tf)).
Proof.
  intros Hwf Hen Hi Hpre Hfail.
  destruct (enable_iter_fails data i w_i Hfail) as (w' & tf & Hit & F).
  exists w', tf.
  assert (Ht : t_i = all_ok (flat_map (enable_calls data) (indices i))).
  { destruct (enable_loop_trace data (Z.to_nat i) 0 (mkstate data w) Hwf
                (Z.le_refl 0)) as (r & w1 & t & Hrun & Hc); [right; lia|].
    rewrite Hrun in Hpre. injection Hpre as -> _ <-.
    destruct Hc as [[_ ->] | [? _]]; [reflexivity | discriminate]. }
  destruct (enable_failure_calls data i tf F) as [rest Hrest].
  split; [|split; [discriminate|split; [exact Ht|split; [exact F|split]]]].
  - unfold multi_regulator_enable. cbn [mkstate drvdata]. rewrite Hen.
    replace (Z.to_nat (count data))
      with (Z.to_nat i + S (Z.to_nat (count data - i - 1)))%nat by lia.
    unfold bind at 1.
    rewrite (enable_loop_app _ _ _ _ _ _ _ Hpre).
    cbn [enable_loop]. unfold bind at 1.
    rewrite (enable_body_iter data _ (mkstate data w_i) Hwf) by lia.
    replace (0 + Z.of_nat (Z.to_nat i)) with i by lia.
    cbn [mkstate hw drvdata]. rewrite Hit. cbn. rewrite !app_nil_r.
    reflexivity.
  - exists rest. exact Hrest.
  - rewrite calls_app. apply Forall_app. split.
    + rewrite Ht, calls_all_ok. apply no_disable_in_enable_calls.
    + pose proof (enable_calls_no_disable data i) as Hno.
      rewrite Hrest in Hno. apply Forall_app in Hno. apply Hno.
Qed.

(** ** One error code *)

Lemma MSG_kinds_differ : MSG_SET_VOLTAGE <> MSG_ENABLE.
Proof. discriminate. Qed.

(** C8: enable on driver data with [count] entries per array returns 0 or
    -EINVAL and nothing else.  When it returns -EINVAL the trace ends with
    the request that failed, at an index i and with the return code e of the
    regulator core, followed by one [dev_err] line that carries i and e:
    the "failed to set voltage" line for a set-voltage request, the "failed
    to enable regulator" line for an enable request.  The two lines
    differ; the value returned does not. *)
Theorem failure_code_collapses data w :
  wf_data data ->
  exists rc s' t,
    multi_regulator_enable (mkstate data w) = Some (rc, s', t)
    /\ (rc = 0 \/
        (rc = - EINVAL /\
         exists i e pre, 0 <= i < count data /\ e <> 0 /\
           (t = pre ++
                [Called (SetVoltage (reg_at data i) (to_int (min_at data i))
                           (to_int (max_at data i))) e;
                 Logged KERN_ERR MSG_SET_VOLTAGE
                   [ArgS (name data); ArgD i; ArgD e]]
            \/
            t = pre ++
                [Called (Enable (reg_at data i)) e;
                 Logged KERN_ERR MSG_ENABLE
                   [ArgS (name data); ArgD i; ArgD e]])))
    /\ MSG_SET_VOLTAGE <> MSG_ENABLE
    /\ - EINVAL <> 0.
Proof.
  intros Hwf. destruct (enabled data) eqn:Hen.
  - eexists 0, _, _. split; [apply enable_when_enabled; exact Hen|].
    split; [left; reflexivity|]. split; [apply MSG_kinds_differ | discriminate].
  - destruct (enable_run data w Hwf Hen) as (rc & d' & w' & t & Hrun & Hc).
    exists rc, (mkstate d' w'), t. split; [exact Hrun|].
    split; [|split; [apply MSG_kinds_differ | discriminate]].
    destruct Hc as [(-> & _) | (-> & _ & k & tf & Hk & -> & F)];
      [left; reflexivity|].
    right. split; [reflexivity|].
    destruct F as [rc G Hrc | rc Hrc].
    + exists k, rc, (all_ok (flat_map (enable_calls data) (indices k))).
      split; [exact Hk|]. split; [exact Hrc|]. left. reflexivity.
    + exists k, rc, (all_ok (flat_map (enable_calls data) (indices k))
                       ++ all_ok (voltage_calls data k)).
      split; [exact Hk|]. split; [exact Hrc|]. right.
      rewrite <- app_assoc. reflexivity.
Qed.

(** ** Construction *)

Section Probe.

Context {platform : @Platform regulator}.

Lemma array_set_length {A} (a : list A) (i : nat) (v : A) :
  length (array_set a i v) = length a.
Proof.
  revert i. induction a as [|x a IH]; intros [|i]; cbn; auto.
Qed.

Lemma nth_array_set_same {A} (a : list A) (i : nat) (v dflt : A) :
  (i < length a)%nat -> nth i (array_set a i v) dflt = v.
Proof.
  revert i. induction a as [|x a IH]; intros [|i] H; cbn in *; try lia.
  - reflexivity.
  - apply IH. lia.
Qed.

Lemma nth_array_set_other {A} (a : list A) (i j : nat) (v dflt : A) :
  i <> j -> nth j (array_set a i v) dflt = nth j a dflt.
Proof.
  revert i j. induction a as [|x a IH]; intros [|i] [|j] H; cbn;
    try reflexivity; try congruence.
  apply IH. congruence.
Qed.

Lemma read_u32_into_length prop i (a : list Z) :
  length (read_u32_into prop i a) = length a.
Proof.
  unfold read_u32_into. destruct (of_property_read_u32_index prop i);
    [apply array_set_length | reflexivity].
Qed.

Lemma read_u32_into_other prop i j (a : list Z) :
  0 <= i -> 0 <= j -> i <> j ->
  nth_uint (read_u32_into prop i a) j = nth_uint a j.
Proof.
  intros Hi Hj Hij. unfold read_u32_into, nth_uint.
  destruct (of_property_read_u32_index prop i); [|reflexivity].
  apply nth_array_set_other. lia.
Qed.

(** An iteration of the parsing loop writes the entries of its own index
    only, and keeps the sizes, the count and the flag. *)
Lemma probe_body_other data i j :
  0 <= i -> 0 <= j -> i <> j ->
  let data' := fst (probe_body data i) in
  reg_at data' j = reg_at data j /\ min_at data' j = min_at data j /\
  max_at data' j = max_at data j /\ pon_at data' j = pon_at data j /\
  poff_at data' j = poff_at data j.
Proof.
  intros Hi Hj Hij. unfold probe_body.
  assert (Hn : Z.to_nat i <> Z.to_nat j) by lia.
  destruct (of_property_read_string_index _ i) as [nm|]; cbn [fst];
    [|repeat split].
  destruct (devm_regulator_get nm) as [e|r]; cbn [fst];
    unfold reg_at, min_at, max_at, pon_at, poff_at; cbn.
  - rewrite nth_array_set_other by exact Hn. repeat split.
  - rewrite nth_array_set_other by exact Hn.
    fold (nth_uint (read_u32_into "min-microvolt" i (min_uV data)) j).
    fold (nth_uint (read_u32_into "max-microvolt" i (max_uV data)) j).
    fold (nth_uint (read_u32_into "power-on-delay-us" i (pon_delay_us data)) j).
    fold (nth_uint (read_u32_into "power-off-delay-us" i (poff_delay_us data)) j).
    rewrite !read_u32_into_other by assumption. repeat split.
Qed.

Lemma probe_body_shape data i :
  let data' := fst (probe_body data i) in
  length (regulators data') = length (regulators data) /\
  length (min_uV data') = length (min_uV data) /\
  length (max_uV data') = length (max_uV data) /\
  length (pon_delay_us data') = length (pon_delay_us data) /\
  length (poff_delay_us data') = length (poff_delay_us data) /\
  count data' = count data /\ enabled data' = enabled data /\
  name data' = name data.
Proof.
  unfold probe_body.
  destruct (of_property_read_string_index _ i) as [nm|]; cbn [fst];
    [|repeat split].
  destruct (devm_regulator_get nm) as [e|r]; cbn;
    rewrite ?read_u32_into_length, array_set_length; repeat split.
Qed.

(** Where the resolution fails the iteration leaves blank entries blank. *)
Lemma probe_body_failed data i :
  0 <= i -> (Z.to_nat i < length (regulators data))%nat ->
  resolution_failed i = true -> blank data i ->
  blank (fst (probe_body data i)) i.
Proof.
  intros Hi Hlen. unfold resolution_failed, probe_body.
  destruct (of_property_read_string_index _ i) as [nm|]; cbn [fst];
    [|intros _ H; exact H].
  destruct (devm_regulator_get nm) as [e|r]; [|discriminate].
  intros _ (_ & Hlo & Hhi & Hon & Hoff). cbn [fst].
  unfold blank, reg_at, min_at, max_at, pon_at, poff_at in *. cbn.
  rewrite nth_array_set_same by exact Hlen. auto.
Qed.

Lemma probe_loop_invariant n : forall data i,
  0 <= i ->
  (Z.to_nat i + n <= length (regulators data))%nat ->
  (forall j, 0 <= j -> i <= j \/ resolution_failed j = true -> blank data j) ->
  let data' := fst (probe_loop data n i) in
  length (regulators data') = length (regulators data) /\
  length (min_uV data') = length (min_uV data) /\
  length (max_uV data') = length (max_uV data) /\
  length (pon_delay_us data') = length (pon_delay_us data) /\
  length (poff_delay_us data') = length (poff_delay_us data) /\
  count data' = count data /\ enabled data' = enabled data /\
  (forall j, 0 <= j ->
     i + Z.of_nat n <= j \/ resolution_failed j = true -> blank data' j).
Proof.
  induction n as [|n IH]; intros data i Hi Hlen Hinv.
  - cbn. do 7 (split; [reflexivity|]).
    intros j Hj H. apply Hinv; [exact Hj|].
    destruct H as [H|H]; [left; lia | right; exact H].
  - cbn [probe_loop].
    pose proof (probe_body_shape data i) as Hshape.
    pose proof (fun j => probe_body_other data i j Hi) as Hother.
    pose proof (probe_body_failed data i Hi) as Hfailed.
    destruct (probe_body data i) as [data1 t1]. cbn [fst] in *.
    destruct Hshape as (S1 & S2 & S3 & S4 & S5 & S6 & S7 & S8).
    specialize (IH data1 (i + 1)).
    destruct (probe_loop data1 n (i + 1)) as [data2 t2]. cbn [fst] in *.
    destruct IH as (L1 & L2 & L3 & L4 & L5 & L6 & L7 & L8).
    + lia.
    + rewrite S1. lia.
    + intros j Hj H.
      destruct (Z.eq_dec i j) as [<- | Hne].
      * destruct H as [H|H]; [lia|].
        apply Hfailed; [lia | exact H | apply Hinv; [exact Hj | left; lia]].
      * destruct (Hother j Hj Hne) as (O1 & O2 & O3 & O4 & O5).
        unfold blank. rewrite O1, O2, O3, O4, O5.
        apply Hinv; [exact Hj|].
        destruct H as [H|H]; [left; lia | right; exact H].
    + do 7 (split; [congruence|]).
      intros j Hj H. apply L8; [exact Hj|].
      destruct H as [H|H]; [left; lia | right; exact H].
Qed.

Lemma nth_repeat_default {A} (x : A) (n j : nat) : nth j (repeat x n) x = x.
Proof.
  revert j. induction n as [|n IH]; intros [|j]; cbn; auto.
Qed.

(** What a successful [probe] hands to the regulator core: arrays of
    [count] entries, [count] positive, the rail disabled, and blank entries
    wherever the supply could not be resolved. *)
Lemma probe_result rc data lg :
  multi_regulator_probe = (rc, Some data, lg) ->
  rc = 0 /\ wf_data data /\ 0 < count data /\ enabled data = false /\
  (forall i, 0 <= i -> resolution_failed i = true -> blank data i).
Proof.
  unfold multi_regulator_probe.
  destruct of_node; cbn [negb]; [|discriminate].
  destruct (of_property_count_strings "supply-names" <=? 0) eqn:Hcnt;
    [discriminate|].
  apply Z.leb_gt in Hcnt.
  destruct devm_kzalloc_data; cbn [negb]; [|discriminate].
  destruct devm_kzalloc_arrays; cbn [negb]; [|discriminate].
  set (cnt := of_property_count_strings "supply-names") in *.
  set (data0 := Build_multi_regulator_data _ _ _ _ _ _ _ _).
  pose proof (probe_loop_invariant (Z.to_nat cnt) data0 0 (Z.le_refl 0)) as Hinv.
  destruct (probe_loop data0 (Z.to_nat cnt) 0) as [data1 t]. cbn [fst] in Hinv.
  destruct of_get_regulator_init_data; cbn [negb]; [|discriminate].
  destruct (truthy (devm_regulator_register data1)) eqn:Hreg; [discriminate|].
  intros [= <- <- <-].
  destruct Hinv as (L1 & L2 & L3 & L4 & L5 & L6 & L7 & L8).
  - subst data0. cbn. rewrite repeat_length. lia.
  - intros j Hj _. subst data0.
    unfold blank, reg_at, min_at, max_at, pon_at, poff_at, nth_uint. cbn.
    rewrite !nth_repeat_default. auto.
  - subst data0. cbn in *. rewrite repeat_length in *.
    split; [reflexivity|]. split.
    + unfold wf_data. rewrite L6. cbn. auto.
    + split; [lia|]. split; [exact L7|].
      intros i Hi H. apply L8; [exact Hi | right; exact H].
Qed.

(** The iteration of an index whose supply [probe] could not resolve, when
    the regulator core returns from the request: the pointer of the index
    is NULL and its voltage window and delays are 0, so the iteration
    issues the enable (or disable) request with the NULL pointer and
    nothing else; what follows is decided by the return code of that
    request as for any other index. *)
Lemma absent_supply_is_forwarded rc0 data lg i s :
  multi_regulator_probe = (rc0, Some data, lg) ->
  0 <= i < count data ->
  resolution_failed i = true ->
  blank data i
  /\ enable_calls data i = [Enable None]
  /\ disable_calls data i = [Disable None]
  /\ (exists rc w',
        regulator_enable None (hw s) = (rc, w') /\
        enable_body data i s =
        Some (if rc =? 0 then None else Some (- EINVAL),
              {| drvdata := drvdata s; hw := w' |},
              Called (Enable None) rc ::
              (if rc =? 0 then []
               else [Logged KERN_ERR MSG_ENABLE
                       [ArgS (name data); ArgD i; ArgD rc]])))
  /\ (exists rc w',
        regulator_disable None (hw s) = (rc, w') /\
        disable_body data i s =
        Some (tt, {| drvdata := drvdata s; hw := w' |},
              Called (Disable None) rc ::
              (if rc =? 0 then []
               else [Logged KERN_WARNING MSG_DISABLE
                       [ArgS (name data); ArgD i; ArgD rc]]))).
Proof.
  intros Hprobe Hi Hfail.
  destruct (probe_result _ _ _ Hprobe) as (_ & Hwf & _ & _ & Hblank).
  specialize (Hblank i (proj1 Hi) Hfail).
  split; [exact Hblank|].
  destruct Hblank as (Hr & Hlo & Hhi & Hon & Hoff).
  split; [|split; [|split]].
  - unfold enable_calls, voltage_calls, voltage_gate, sleep_calls.
    rewrite Hr, Hlo, Hhi, Hon. reflexivity.
  - unfold disable_calls, sleep_calls. rewrite Hr, Hoff. reflexivity.
  - destruct (regulator_enable None (hw s)) as [rc w'] eqn:E.
    exists rc, w'. split; [reflexivity|].
    rewrite (enable_body_iter data i s Hwf Hi).
    unfold enable_iter, voltage_gate. rewrite Hr, Hlo, Hhi, Hon.
    cbn [truthy Z.eqb negb orb]. rewrite E. unfold truthy.
    destruct (rc =? 0); reflexivity.
  - destruct (regulator_disable None (hw s)) as [rc w'] eqn:E.
    exists rc, w'. split; [reflexivity|].
    rewrite (disable_body_iter data i s Hwf Hi).
    unfold disable_iter. rewrite Hr, Hoff, E.
    unfold truthy. destruct (rc =? 0); reflexivity.
Qed.

End Probe.

(** ** Delays *)

Lemma sleep_calls_zero : sleep_calls (regulator := regulator) 0 = [].
Proof. reflexivity. Qed.

(** Below 2^31 microseconds the window asked for is [d, 2 * d]. *)
Lemma sleep_calls_no_wrap d :
  0 < d < 2 ^ 31 -> sleep_calls (regulator := regulator) d = [Sleep d (2 * d)].
Proof.
  intros Hd. unfold sleep_calls. rewrite truthy_nonzero by lia.
  unfold uint_wrap, UINT_WIDTH. rewrite Z.mod_small by lia. reflexivity.
Qed.

(** From 2^31 microseconds on the product wraps and the upper bound asked
    for is below the lower one. *)
Lemma sleep_calls_wrap d :
  2 ^ 31 <= d < 2 ^ 32 ->
  sleep_calls (regulator := regulator) d = [Sleep d (2 * d - 2 ^ 32)]
  /\ 2 * d - 2 ^ 32 < d.
Proof.
  intros Hd. unfold sleep_calls. rewrite truthy_nonzero by lia.
  unfold uint_wrap, UINT_WIDTH.
  replace (2 * d) with (2 * d - 2 ^ 32 + 1 * 2 ^ 32) at 1 by lia.
  rewrite Z.mod_add by lia. rewrite Z.mod_small by lia.
  split; [reflexivity | lia].
Qed.

Lemma sleep_requests_of_disable_calls data (l : list Z) :
  filter is_sleep (flat_map (disable_calls data) l) =
  flat_map (fun i => sleep_calls (poff_at data i)) l.
Proof.
  induction l as [|j l IH]; [reflexivity|].
  cbn [flat_map]. rewrite filter_app, IH. f_equal.
  unfold disable_calls, sleep_calls.
  destruct (truthy (poff_at data j)); reflexivity.
Qed.

Lemma sleep_requests_of_enable_calls data (l : list Z) :
  filter is_sleep (flat_map (enable_calls data) l) =
  flat_map (fun i => sleep_calls (pon_at data i)) l.
Proof.
  induction l as [|j l IH]; [reflexivity|].
  cbn [flat_map]. rewrite filter_app, IH. f_equal.
  unfold enable_calls, voltage_calls, sleep_calls.
  destruct (voltage_gate data j); destruct (truthy (pon_at data j));
    reflexivity.
Qed.

(** The sleeps of a call of enable that returns 0, and of a call of
    disable: one per index with a nonzero delay, in the order of the
    indices. *)
Lemma sleep_requests data w :
  wf_data data ->
  (enabled data = false ->
   forall s' t,
     multi_regulator_enable (mkstate data w) = Some (0, s', t) ->
     filter is_sleep (calls t) =
     flat_map (fun i => sleep_calls (pon_at data i)) (indices (count data)))
  /\
  (enabled data = true ->
   exists s' t,
     multi_regulator_disable (mkstate data w) = Some (0, s', t) /\
     filter is_sleep (calls t) =
     flat_map (fun i => sleep_calls (poff_at data i)) (indices (count data))).
Proof.
  intros Hwf. split; intros Hen.
  - intros s' t Hrun.
    destruct (enable_run data w Hwf Hen) as (rc & d' & w' & t' & Hrun' & Hc).
    rewrite Hrun in Hrun'. injection Hrun' as <- _ <-.
    destruct Hc as [(_ & _ & ->) | (H & _)]; [|discriminate].
    rewrite calls_all_ok. apply sleep_requests_of_enable_calls.
  - destruct (disable_run data w Hwf Hen) as (w' & t & Hrun & Hc).
    eexists _, t. split; [exact Hrun|].
    rewrite Hc. apply sleep_requests_of_disable_calls.
Qed.


(** ** Calls in sequence *)

Lemma wf_set_enabled b data : wf_data data -> wf_data (set_enabled b data).
Proof. intros H. exact H. Qed.

Lemma wf_same_config data data' :
  same_config data data' -> wf_data data -> wf_data data'.
Proof.
  intros (H1 & _ & H2 & H3 & H4 & H5 & H6). unfold wf_data.
  rewrite H1, H2, H3, H4, H5, H6. auto.
Qed.

Lemma set_enabled_same data : set_enabled (enabled data) data = data.
Proof. destruct data. reflexivity. Qed.

Lemma set_enabled_twice b1 b2 data :
  set_enabled b2 (set_enabled b1 data) = set_enabled b2 data.
Proof. reflexivity. Qed.

(** Enable followed by disable: when enable on a disabled rail returns 0,
    is_enabled then returns 1, and disable runs every iteration, returns 0
    and leaves the driver data exactly as it was before the enable. *)
Theorem enable_disable_round_trip data w s1 t1 :
  wf_data data -> enabled data = false ->
  multi_regulator_enable (mkstate data w) = Some (0, s1, t1) ->
  multi_regulator_is_enabled s1 = Some (1, s1, [])
  /\ exists w2 t2,
       multi_regulator_disable s1 = Some (0, mkstate data w2, t2)
       /\ calls t2 = flat_map (disable_calls data) (indices (count data)).
Proof.
  intros Hwf Hen Hrun.
  destruct (enable_run data w Hwf Hen) as (rc & d' & w' & t & Hrun' & Hc).
  rewrite Hrun in Hrun'. injection Hrun' as <- -> <-.
  destruct Hc as [(_ & -> & _) | (H & _)]; [|discriminate].
  split; [reflexivity|].
  destruct (disable_run (set_enabled true data) w'
              (wf_set_enabled true data Hwf) eq_refl) as (w2 & t2 & Hd & Hcalls).
  exists w2, t2. split; [|exact Hcalls].
  rewrite Hd, set_enabled_twice, <- Hen, set_enabled_same. reflexivity.
Qed.

(** After an enable that failed the rail counts as disabled: is_enabled
    returns 0 and disable returns 0 at once, with the "already disabled"
    warning and without any request, so the supplies the failed enable
    switched on are not switched off by it. *)
Theorem failed_enable_is_not_undone data w rc s1 t1 :
  wf_data data -> enabled data = false ->
  multi_regulator_enable (mkstate data w) = Some (rc, s1, t1) ->
  rc <> 0 ->
  (exists w1, s1 = mkstate data w1)
  /\ multi_regulator_is_enabled s1 = Some (0, s1, [])
  /\ multi_regulator_disable s1 =
       Some (0, s1,
             [Logged KERN_WARNING MSG_ALREADY_DISABLED [ArgS (name data)]]).
Proof.
  intros Hwf Hen Hrun Hrc.
  destruct (enable_run data w Hwf Hen) as (rc' & d' & w' & t & Hrun' & Hc).
  rewrite Hrun in Hrun'. injection Hrun' as -> -> ->.
  destruct Hc as [(-> & _) | (_ & -> & _)]; [contradiction|].
  split; [exists w'; reflexivity|]. split.
  - rewrite is_enabled_run. cbn [mkstate drvdata]. rewrite Hen. reflexivity.
  - apply disable_when_disabled. exact Hen.
Qed.

(** A second enable after an enable that returned 0, and a second disable
    after a disable, issue no request and change nothing. *)
Theorem repeated_call_is_noop data w :
  wf_data data ->
  (enabled data = false ->
   forall s1 t1,
     multi_regulator_enable (mkstate data w) = Some (0, s1, t1) ->
     exists t2,
       multi_regulator_enable s1 = Some (0, s1, t2) /\ calls t2 = [])
  /\
  (enabled data = true ->
   exists s1 t1 t2,
     multi_regulator_disable (mkstate data w) = Some (0, s1, t1) /\
     multi_regulator_disable s1 = Some (0, s1, t2) /\ calls t2 = []).
Proof.
  intros Hwf. split; intros Hen.
  - intros s1 t1 Hrun.
    destruct (enable_run data w Hwf Hen) as (rc & d' & w' & t & Hrun' & Hc).
    rewrite Hrun in Hrun'. injection Hrun' as <- -> <-.
    destruct Hc as [(_ & -> & _) | (H & _)]; [|discriminate].
    eexists. split; [apply enable_when_enabled; reflexivity | reflexivity].
  - destruct (disable_run data w Hwf Hen) as (w' & t & Hrun & _).
    eexists _, t, _. split; [exact Hrun|].
    split; [apply disable_when_disabled; reflexivity | reflexivity].
Qed.

(** ** Why enable fails *)

Lemma enable_iter_failure_origin data i w rc w' t :
  enable_iter data i w = (Some rc, w', t) ->
  set_voltage_fails data i w \/ enable_fails data i w.
Proof.
  unfold enable_iter, set_voltage_fails, enable_fails.
  destruct (voltage_gate data i) eqn:G.
  - destruct (regulator_set_voltage _ _ _ w) as [rc1 w1]. cbn [fst snd].
    destruct (truthy rc1) eqn:E1.
    + intros _. left. split; [reflexivity | apply truthy_true; exact E1].
    + apply truthy_false in E1.
      destruct (regulator_enable _ w1) as [rc2 w2]. cbn [fst].
      destruct (truthy rc2) eqn:E2.
      * intros _. right. split; [exact E1 | apply truthy_true; exact E2].
      * destruct (truthy (pon_at data i)); discriminate.
  - cbn [truthy Z.eqb negb].
    destruct (regulator_enable _ w) as [rc2 w2]. cbn [fst].
    destruct (truthy rc2) eqn:E2.
    + intros _. right. apply truthy_true; exact E2.
    + destruct (truthy (pon_at data i)); discriminate.
Qed.

Lemma enable_loop_failure_origin data n : forall i s rc s' t,
  wf_data data -> 0 <= i -> i + Z.of_nat n <= count data ->
  enable_loop data n i s = Some (Some rc, s', t) ->
  exists k w_k t_k,
    (k < n)%nat /\
    enable_loop data k i s
      = Some (None, {| drvdata := drvdata s; hw := w_k |}, t_k) /\
    (set_voltage_fails data (i + Z.of_nat k) w_k \/
     enable_fails data (i + Z.of_nat k) w_k).
Proof.
  induction n as [|n IH]; intros i s rc s' t Hwf Hi Hn; [discriminate|].
  cbn [enable_loop]. unfold bind at 1.
  rewrite (enable_body_iter data i s Hwf) by lia.
  destruct (enable_iter data i (hw s)) as [[[rc1|] w1] t1] eqn:E.
  - intros _. exists O, (hw s), []. split; [lia|].
    split; [destruct s; reflexivity|].
    replace (i + Z.of_nat 0) with i by lia.
    exact (enable_iter_failure_origin _ _ _ _ _ _ E).
  - destruct (enable_loop data n (i + 1)
                {| drvdata := drvdata s; hw := w1 |})
      as [[[r2 s2] t2]|] eqn:E2; [|discriminate].
    intros H. injection H as -> _ _.
    destruct (IH (i + 1) {| drvdata := drvdata s; hw := w1 |} rc s2 t2 Hwf)
      as (k & w_k & t_k & Hk & Hpre & Hfail); [lia | lia | exact E2 |].
    cbn [drvdata] in Hpre.
    exists (S k), w_k, (t1 ++ t_k). split; [lia|]. split.
    + cbn [enable_loop]. unfold bind at 1.
      rewrite (enable_body_iter data i s Hwf) by lia.
      rewrite E, Hpre. reflexivity.
    + replace (i + Z.of_nat (S k)) with (i + 1 + Z.of_nat k) by lia.
      exact Hfail.
Qed.

(** Enable on a disabled rail returns a failure only when a request failed:
    there is an index i below count such that the iterations before i went
    through and the set-voltage request or the enable request of i was
    answered with a nonzero code. *)
Theorem enable_fails_only_on_failed_request data w rc s1 t1 :
  wf_data data -> enabled data = false ->
  multi_regulator_enable (mkstate data w) = Some (rc, s1, t1) ->
  rc <> 0 ->
  exists i w_i t_i,
    0 <= i < count data /\
    enable_loop data (Z.to_nat i) 0 (mkstate data w)
      = Some (None, mkstate data w_i, t_i) /\
    (set_voltage_fails data i w_i \/ enable_fails data i w_i).
Proof.
  intros Hwf Hen Hrun Hrc.
  unfold multi_regulator_enable in Hrun. cbn [mkstate drvdata] in Hrun.
  rewrite Hen in Hrun. unfold bind at 1 in Hrun.
  destruct (enable_loop data (Z.to_nat (count data)) 0 (mkstate data w))
    as [[[[rc'|] s'] t']|] eqn:E; try discriminate.
  - destruct (count_iterations data) as [H0 | Hle].
    { rewrite H0 in E. discriminate. }
    destruct (enable_loop_failure_origin _ _ _ _ _ _ _ Hwf (Z.le_refl 0) Hle E)
      as (k & w_k & t_k & Hk & Hpre & Hfail).
    exists (Z.of_nat k), w_k, t_k. rewrite Nat2Z.id.
    split; [lia|]. split; [exact Hpre | exact Hfail].
  - exfalso.
    destruct (enable_loop_trace data (Z.to_nat (count data)) 0
                (mkstate data w) Hwf (Z.le_refl 0)
                (count_iterations data)) as (r & w' & t & Hrun' & _).
    rewrite E in Hrun'. injection Hrun' as _ -> _.
    cbn in Hrun. injection Hrun as <- _ _. apply Hrc. reflexivity.
Qed.

Lemma enable_loop_cooperative data n : forall i s,
  (forall r lo hi w, fst (regulator_set_voltage r lo hi w) = 0) ->
  (forall r w, fst (regulator_enable r w) = 0) ->
  wf_data data -> 0 <= i -> n = O \/ i + Z.of_nat n <= count data ->
  exists w',
    enable_loop data n i s =
    Some (None, {| drvdata := drvdata s; hw := w' |},
          all_ok (flat_map (enable_calls data) (range i n))).
Proof.
  intros i s Hsv Hen Hwf Hi Hn.
  destruct (enable_loop_trace data n i s Hwf Hi Hn) as (r & w' & t & Hrun & Hc).
  destruct Hc as [[-> ->] | [-> _]]; [exists w'; exact Hrun|].
  exfalso.
  destruct Hn as [-> | Hn]; [discriminate|].
  destruct (enable_loop_failure_origin _ _ _ _ _ _ _ Hwf Hi Hn Hrun)
    as (k & w_k & _ & _ & _ & [[_ H] | H]).
  - apply H, Hsv.
  - unfold enable_fails in H.
    destruct (voltage_gate data (i + Z.of_nat k));
      [destruct H as [_ H]|]; apply H, Hen.
Qed.

(** With a regulator core that answers every set-voltage and every enable
    request with 0, enable on a disabled rail returns 0, sets the flag and
    has issued the calls of every index, all answered 0 and no diagnostic
    among them. *)
Theorem enable_succeeds_when_requests_do data w :
  (forall r lo hi w0, fst (regulator_set_voltage r lo hi w0) = 0) ->
  (forall r w0, fst (regulator_enable r w0) = 0) ->
  wf_data data -> enabled data = false ->
  exists w',
    multi_regulator_enable (mkstate data w) =
    Some (0, mkstate (set_enabled true data) w',
          all_ok (flat_map (enable_calls data) (indices (count data)))).
Proof.
  intros Hsv Hen Hwf Hoff.
  destruct (enable_loop_cooperative data (Z.to_nat (count data)) 0
              (mkstate data w) Hsv Hen Hwf (Z.le_refl 0)
              (count_iterations data)) as (w' & Hrun).
  exists w'. unfold multi_regulator_enable. cbn [mkstate drvdata].
  rewrite Hoff. unfold bind at 1. rewrite Hrun. cbn.
  rewrite !app_nil_r. reflexivity.
Qed.


(** ** The first request that fails *)

Lemma replay_app (c1 c2 : list (call regulator)) w :
  replay (c1 ++ c2) w = replay c2 (replay c1 w).
Proof. unfold replay. apply fold_left_app. Qed.

Lemma enable_iter_ok_world data i w w' t :
  enable_iter data i w = (None, w', t) ->
  w' = replay (enable_calls data i) w.
Proof.
  unfold enable_iter, enable_calls, voltage_calls, sleep_calls, replay.
  destruct (voltage_gate data i).
  - destruct (regulator_set_voltage _ _ _ w) as [rc1 w1] eqn:E1.
    destruct (truthy rc1); [discriminate|].
    destruct (regulator_enable _ w1) as [rc2 w2] eqn:E2.
    destruct (truthy rc2); [discriminate|].
    destruct (truthy (pon_at data i)); intros [= <- _]; cbn;
      rewrite E1; cbn; rewrite E2; reflexivity.
  - cbn [truthy Z.eqb negb].
    destruct (regulator_enable _ w) as [rc2 w2] eqn:E2.
    destruct (truthy rc2); [discriminate|].
    destruct (truthy (pon_at data i)); intros [= <- _]; cbn;
      rewrite E2; reflexivity.
Qed.

(** The calls of the iteration in which a request fails end with that
    request. *)
Lemma enable_iter_fails_calls data i w :
  set_voltage_fails data i w \/ enable_fails data i w ->
  exists w' tf,
    enable_iter data i w = (Some (- EINVAL), w', tf) /\
    ((set_voltage_fails data i w /\
      calls tf = [SetVoltage (reg_at data i) (to_int (min_at data i))
                    (to_int (max_at data i))])
     \/ (enable_fails data i w /\
         calls tf = voltage_calls data i ++ [Enable (reg_at data i)])).
Proof.
  intros H. unfold enable_iter, voltage_calls.
  unfold set_voltage_fails, enable_fails in *.
  destruct (voltage_gate data i) eqn:G.
  - destruct (regulator_set_voltage _ _ _ w) as [rc1 w1]. cbn [fst snd] in *.
    destruct (truthy rc1) eqn:E1.
    + apply truthy_true in E1. eexists _, _. split; [reflexivity|].
      left. split; [split; [reflexivity | exact E1] | reflexivity].
    + apply truthy_false in E1.
      destruct H as [[_ H] | [_ H]]; [contradiction|].
      destruct (regulator_enable _ w1) as [rc2 w2]. cbn [fst] in *.
      rewrite (truthy_nonzero _ H).
      eexists _, _. split; [reflexivity|].
      right. split; [split; [exact E1 | exact H] | reflexivity].
  - destruct H as [[H _] | H]; [discriminate|].
    cbn [truthy Z.eqb negb].
    destruct (regulator_enable _ w) as [rc2 w2]. cbn [fst] in *.
    rewrite (truthy_nonzero _ H).
    eexists _, _. split; [reflexivity|].
    right. split; [exact H | reflexivity].
Qed.

(** Iterations that went through left the core in the state their calls
    lead to, and none of their requests failed. *)
Lemma enable_loop_ok_world data n : forall i s s' t,
  wf_data data -> 0 <= i -> n = O \/ i + Z.of_nat n <= count data ->
  enable_loop data n i s = Some (None, s', t) ->
  hw s' = replay (flat_map (enable_calls data) (range i n)) (hw s) /\
  forall m, (m < n)%nat ->
    ~ (set_voltage_fails data (i + Z.of_nat m)
         (replay (flat_map (enable_calls data) (range i m)) (hw s)) \/
       enable_fails data (i + Z.of_nat m)
         (replay (flat_map (enable_calls data) (range i m)) (hw s))).
Proof.
  induction n as [|n IH]; intros i s s' t Hwf Hi Hn.
  - cbn. intros [= <- _]. split; [reflexivity | intros m Hm; lia].
  - destruct Hn as [Hn|Hn]; [discriminate|].
    cbn [enable_loop]. unfold bind at 1.
    rewrite (enable_body_iter data i s Hwf) by lia.
    destruct (enable_iter data i (hw s)) as [[[rc1|] w1] t1] eqn:E;
      [discriminate|].
    destruct (enable_loop data n (i + 1) {| drvdata := drvdata s; hw := w1 |})
      as [[[r2 s2] t2]|] eqn:E2; [|discriminate].
    intros H. injection H as -> -> _.
    destruct (IH (i + 1) {| drvdata := drvdata s; hw := w1 |} s' t2 Hwf)
      as [Hw Hno]; [lia | right; lia | exact E2 |].
    cbn [hw] in Hw, Hno.
    pose proof (enable_iter_ok_world _ _ _ _ _ E) as Hw1.
    split.
    + cbn [range flat_map]. rewrite replay_app, <- Hw1. exact Hw.
    + intros [|m] Hm.
      * cbn [range flat_map]. replace (i + Z.of_nat 0) with i by lia.
        intros Hf. change (replay [] (hw s)) with (hw s) in Hf.
        destruct (enable_iter_fails data i (hw s) Hf) as (? & ? & Hit & _).
        rewrite E in Hit. discriminate.
      * cbn [range flat_map]. rewrite replay_app, <- Hw1.
        replace (i + Z.of_nat (S m)) with (i + 1 + Z.of_nat m) by lia.
        apply Hno. lia.
Qed.

(** The whole of enable on a disabled rail, by the first index k at which
    a request fails when the supplies below it are on: k is count (and the
    call returns 0 after the calls of every index) when there is none. *)
Lemma enable_first_failure data w :
  wf_data data -> enabled data = false ->
  exists rc s' t k,
    multi_regulator_enable (mkstate data w) = Some (rc, s', t)
    /\ 0 <= k <= Z.max 0 (count data)
    /\ (forall j, 0 <= j < k -> ~ request_fails data j w)
    /\ ((rc = 0 /\ k = Z.max 0 (count data) /\
         calls t = flat_map (enable_calls data) (indices (count data)))
        \/ (rc = - EINVAL /\ k < count data /\
            ((set_voltage_fails data k (core_before data k w) /\
              calls t = flat_map (enable_calls data) (indices k) ++
                        [SetVoltage (reg_at data k) (to_int (min_at data k))
                           (to_int (max_at data k))])
             \/ (enable_fails data k (core_before data k w) /\
                 calls t = flat_map (enable_calls data) (indices k) ++
                           voltage_calls data k ++ [Enable (reg_at data k)])))).
Proof.
  intros Hwf Hen.
  assert (Hbefore : forall n s' t',
            n = O \/ 0 + Z.of_nat n <= count data ->
            enable_loop data n 0 (mkstate data w) = Some (None, s', t') ->
            hw s' = core_before data (Z.of_nat n) w /\
            forall j, 0 <= j < Z.of_nat n -> ~ request_fails data j w).
  { intros n s' t' Hn Hloop.
    destruct (enable_loop_ok_world data n 0 _ _ _ Hwf (Z.le_refl 0) Hn Hloop)
      as [Hw Hno].
    split.
    - unfold core_before, indices. rewrite Nat2Z.id. exact Hw.
    - intros j Hj.
      assert (Hm : (Z.to_nat j < n)%nat) by lia.
      specialize (Hno (Z.to_nat j) Hm).
      unfold request_fails, core_before, indices.
      replace (0 + Z.of_nat (Z.to_nat j)) with j in Hno by lia.
      exact Hno. }
  destruct (enable_loop_trace data (Z.to_nat (count data)) 0 (mkstate data w)
              Hwf (Z.le_refl 0) (count_iterations data))
    as (r & w' & t & Hrun & Hc).
  assert (Hcall : multi_regulator_enable (mkstate data w) =
                  match r with
                  | Some rc => Some (rc, mkstate data w', t)
                  | None => Some (0, mkstate (set_enabled true data) w', t)
                  end).
  { unfold multi_regulator_enable. cbn [mkstate drvdata]. rewrite Hen.
    unfold bind at 1. change {| drvdata := Some data; hw := w |}
      with (mkstate data w). rewrite Hrun.
    destruct r; cbn; rewrite !app_nil_r; reflexivity. }
  destruct Hc as [[-> ->] | [-> _]].
  - destruct (Hbefore _ _ _ (count_iterations data) Hrun) as [_ Hno].
    eexists 0, _, _, (Z.max 0 (count data)).
    split; [exact Hcall|]. split; [lia|]. split.
    + intros j Hj. apply Hno. lia.
    + left. split; [reflexivity|]. split; [reflexivity | apply calls_all_ok].
  - destruct (count_iterations data) as [H0 | Hle].
    { rewrite H0 in Hrun. discriminate. }
    destruct (enable_loop_failure_origin _ _ _ _ _ _ _ Hwf (Z.le_refl 0) Hle Hrun)
      as (k & w_k & t_k & Hk & Hpre & Hfail).
    cbn [mkstate drvdata] in Hpre.
    assert (Hkn : k = O \/ 0 + Z.of_nat k <= count data) by (right; lia).
    destruct (Hbefore k _ _ Hkn Hpre) as [Hw Hno].
    cbn [hw] in Hw. subst w_k.
    assert (Ht : t_k = all_ok (flat_map (enable_calls data)
                                 (indices (Z.of_nat k)))).
    { destruct (enable_loop_trace data k 0 (mkstate data w) Hwf
                  (Z.le_refl 0) Hkn)
        as (r1 & w1 & t1 & Hrun1 & Hc1).
      change {| drvdata := Some data; hw := w |} with (mkstate data w) in Hpre.
      rewrite Hrun1 in Hpre. injection Hpre as -> _ <-.
      unfold indices. rewrite Nat2Z.id.
      destruct Hc1 as [[_ ->] | [? _]]; [reflexivity | discriminate]. }
    replace (0 + Z.of_nat k) with (Z.of_nat k) in Hfail by lia.
    destruct (enable_iter_fails_calls data _ _ Hfail)
      as (w2 & tf & Hit & Hkind).
    assert (Hloop : enable_loop data (Z.to_nat (count data)) 0 (mkstate data w)
                    = Some (Some (- EINVAL),
                            mkstate data w2, t_k ++ tf ++ [])).
    { replace (Z.to_nat (count data))
        with (k + S (Z.to_nat (count data) - k - 1))%nat by lia.
      rewrite (enable_loop_app _ _ _ _ _ _ _ Hpre).
      cbn [enable_loop]. unfold bind at 1.
      rewrite (enable_body_iter data _ _ Hwf) by lia.
      replace (0 + Z.of_nat k) with (Z.of_nat k) by lia.
      cbn [hw drvdata]. rewrite Hit. reflexivity. }
    rewrite Hloop in Hrun. injection Hrun as <- <-.
    eexists (- EINVAL), _, _, (Z.of_nat k).
    split; [exact Hcall|]. split; [lia|]. split; [exact Hno|].
    right. split; [reflexivity|]. split; [lia|].
    rewrite !calls_app, Ht, calls_all_ok. cbn [calls flat_map].
    rewrite !app_nil_r.
    destruct Hkind as [[Hf ->] | [Hf ->]]; [left | right];
      (split; [exact Hf | reflexivity]).
Qed.

(** ** Order *)

(** C5: [indices count] being the indices 0, ..., count-1 in ascending
    order, the calls of enable on a disabled rail are the calls of index 0,
    then those of index 1, and so on, up to the first index k at which a
    request fails when the supplies below k are on: if there is no such
    index the call returns 0 after the calls of every index, and otherwise
    it returns -EINVAL after the calls of the indices below k and those of
    index k up to the request that fails.  The calls of disable on an
    enabled rail are those of the indices 0, ..., count-1 in this same
    order. *)
Theorem ascending_order data w :
  wf_data data ->
  (StronglySorted Z.lt (indices (count data)) /\
   forall j, In j (indices (count data)) <-> 0 <= j < count data)
  /\
  (enabled data = false ->
   exists rc s' t k,
     multi_regulator_enable (mkstate data w) = Some (rc, s', t)
     /\ 0 <= k <= Z.max 0 (count data)
     /\ (forall j, 0 <= j < k -> ~ request_fails data j w)
     /\ ((rc = 0 /\ k = Z.max 0 (count data) /\
          calls t = flat_map (enable_calls data) (indices (count data)))
         \/ (rc = - EINVAL /\ k < count data /\
             ((set_voltage_fails data k (core_before data k w) /\
               calls t = flat_map (enable_calls data) (indices k) ++
                         [SetVoltage (reg_at data k) (to_int (min_at data k))
                            (to_int (max_at data k))])
              \/ (enable_fails data k (core_before data k w) /\
                  calls t = flat_map (enable_calls data) (indices k) ++
                            voltage_calls data k ++
                            [Enable (reg_at data k)])))))
  /\
  (enabled data = true ->
   exists s' t,
     multi_regulator_disable (mkstate data w) = Some (0, s', t)
     /\ calls t = flat_map (disable_calls data) (indices (count data))).
Proof.
  intros Hwf.
  split; [split; [apply range_sorted | apply indices_in]|].
  split; intros Hen.
  - apply enable_first_failure; assumption.
  - destruct (disable_run data w Hwf Hen) as (w' & t & Hrun & Hc).
    exists (mkstate (set_enabled false data) w'), t. split; assumption.
Qed.

(** ** The voltage window *)

(** The set-voltage requests of enable on a disabled rail.  With k the
    first index at which a request fails when the supplies below it are on
    (count, and the call returns 0, if there is none), the iterations begun
    are those of the indices up to k, and the set-voltage requests issued
    are, index by index over these, none when min_uV[i] and max_uV[i] are
    both 0, and otherwise the single request for regulators[i] with
    min_uV[i] and max_uV[i] as the [int] bounds. *)
Theorem voltage_set_gating data w :
  wf_data data -> enabled data = false ->
  exists rc s' t k,
    multi_regulator_enable (mkstate data w) = Some (rc, s', t)
    /\ 0 <= k <= Z.max 0 (count data)
    /\ (forall j, 0 <= j < k -> ~ request_fails data j w)
    /\ ((rc = 0 /\ k = Z.max 0 (count data)) \/
        (rc = - EINVAL /\ k < count data /\ request_fails data k w))
    /\ filter is_set_voltage (calls t) =
       flat_map
         (fun i =>
            if (min_at data i =? 0) && (max_at data i =? 0) then []
            else [SetVoltage (reg_at data i) (to_int (min_at data i))
                    (to_int (max_at data i))])
         (indices (if rc =? 0 then k else k + 1)).
Proof.
  intros Hwf Hen.
  destruct (enable_first_failure data w Hwf Hen)
    as (rc & s' & t & k & Hrun & Hk & Hno & Hc).
  exists rc, s', t, k. split; [exact Hrun|]. split; [exact Hk|].
  split; [exact Hno|].
  rewrite <- (flat_map_ext _ _ (voltage_calls_explicit data)).
  destruct Hc as [(-> & -> & Hcalls) | (-> & Hlt & Hkind)].
  - split; [left; split; reflexivity|]. cbn [Z.eqb].
    rewrite Hcalls, voltage_requests_of_calls. f_equal.
    unfold indices. f_equal. lia.
  - split; [right; split; [reflexivity|split; [exact Hlt|]]|].
    + unfold request_fails. destruct Hkind as [[H _] | [H _]]; auto.
    + change (- EINVAL =? 0) with false. cbn iota.
      rewrite indices_succ by lia. rewrite flat_map_app. cbn [flat_map].
      rewrite app_nil_r.
      destruct Hkind as [[[G _] ->] | [_ ->]];
        rewrite ?filter_app, voltage_requests_of_calls; f_equal.
      * unfold voltage_calls. rewrite G. reflexivity.
      * cbn. rewrite app_nil_r. unfold voltage_calls.
        destruct (voltage_gate data k); reflexivity.
Qed.

(** Below 2^31 the conversion to [int] keeps the value. *)
Lemma to_int_below_wrap x : 0 <= x < 2 ^ 31 -> to_int x = x.
Proof.
  intros H. unfold to_int, UINT_WIDTH. cbn [Z.sub Z.add Z.opp Z.pos_sub].
  change (2 ^ (32 - 1)) with (2 ^ 31).
  rewrite Z.mod_small by lia. lia.
Qed.

(** ** Sleeps below the wrap *)

Lemma flat_map_ext_on {A B} (f g : A -> list B) (l : list A) :
  (forall a, In a l -> f a = g a) -> flat_map f l = flat_map g l.
Proof.
  induction l as [|a l IH]; intros H; [reflexivity|].
  cbn [flat_map]. rewrite (H a (or_introl eq_refl)), IH; [reflexivity|].
  intros b Hb. apply H. right. exact Hb.
Qed.

Lemma sleep_calls_below_wrap d :
  0 <= d < 2 ^ 31 ->
  sleep_calls (regulator := regulator) d =
  if d =? 0 then [] else [Sleep d (2 * d)].
Proof.
  intros Hd. destruct (d =? 0) eqn:E.
  - apply Z.eqb_eq in E. subst d. reflexivity.
  - apply Z.eqb_neq in E. apply sleep_calls_no_wrap. lia.
Qed.

(** When every delay of the table is below 2^31 microseconds, the sleeps of
    an enable that returns 0 are, in the order of the indices, one sleep
    between pon_delay_us[i] and twice that for each index whose power-on
    delay is not 0, and none for the others; the sleeps of a disable are
    the same with the power-off delays. *)
Theorem delay_windows data w :
  wf_data data ->
  (forall i, 0 <= i < count data ->
     0 <= pon_at data i < 2 ^ 31 /\ 0 <= poff_at data i < 2 ^ 31) ->
  (enabled data = false ->
   forall s' t,
     multi_regulator_enable (mkstate data w) = Some (0, s', t) ->
     filter is_sleep (calls t) =
     flat_map (fun i => if pon_at data i =? 0 then []
                        else [Sleep (pon_at data i) (2 * pon_at data i)])
       (indices (count data)))
  /\
  (enabled data = true ->
   exists s' t,
     multi_regulator_disable (mkstate data w) = Some (0, s', t) /\
     filter is_sleep (calls t) =
     flat_map (fun i => if poff_at data i =? 0 then []
                        else [Sleep (poff_at data i) (2 * poff_at data i)])
       (indices (count data))).
Proof.
  intros Hwf Hd.
  destruct (sleep_requests data w Hwf) as [Hon Hoff].
  split; intros Hen.
  - intros s' t Hrun. rewrite (Hon Hen s' t Hrun).
    apply flat_map_ext_on. intros i Hi. apply indices_in in Hi.
    apply sleep_calls_below_wrap, Hd, Hi.
  - destruct (Hoff Hen) as (s' & t & Hrun & Hs).
    exists s', t. split; [exact Hrun|]. rewrite Hs.
    apply flat_map_ext_on. intros i Hi. apply indices_in in Hi.
    apply sleep_calls_below_wrap, Hd, Hi.
Qed.

(** ** Requests that are never made *)

Lemma disable_calls_kind data (l : list Z) :
  Forall (fun c => is_disable c = true \/ is_sleep c = true)
    (flat_map (disable_calls data) l).
Proof.
  induction l as [|j l IH]; [constructor|].
  cbn [flat_map]. apply Forall_app. split; [|exact IH].
  unfold disable_calls, sleep_calls.
  destruct (truthy (poff_at data j)).
  - constructor; [left; reflexivity|].
    constructor; [right; reflexivity | constructor].
  - constructor; [left; reflexivity | constructor].
Qed.

(** Enable on a disabled rail, whether it succeeds or fails, never issues a
    disable request; disable on an enabled rail issues disable requests and
    sleeps only, never a set-voltage or an enable request. *)
Theorem requests_by_operation data w :
  wf_data data ->
  (enabled data = false ->
   exists rc s' t,
     multi_regulator_enable (mkstate data w) = Some (rc, s', t) /\
     Forall (fun c => is_disable c = false) (calls t))
  /\
  (enabled data = true ->
   exists s' t,
     multi_regulator_disable (mkstate data w) = Some (0, s', t) /\
     Forall (fun c => is_disable c = true \/ is_sleep c = true) (calls t)).
Proof.
  intros Hwf. split; intros Hen.
  - destruct (enable_run data w Hwf Hen) as (rc & d' & w' & t & Hrun & Hc).
    exists rc, (mkstate d' w'), t. split; [exact Hrun|].
    destruct Hc as [(_ & _ & ->) | (_ & _ & k & tf & Hk & -> & F)].
    + rewrite calls_all_ok. apply no_disable_in_enable_calls.
    + rewrite calls_app, calls_all_ok. apply Forall_app. split;
        [apply no_disable_in_enable_calls|].
      destruct (enable_failure_calls data k tf F) as [rest Hrest].
      pose proof (enable_calls_no_disable data k) as Hno.
      rewrite Hrest in Hno. apply Forall_app in Hno. apply Hno.
  - destruct (disable_run data w Hwf Hen) as (w' & t & Hrun & Hc).
    eexists _, t. split; [exact Hrun|]. rewrite Hc. apply disable_calls_kind.
Qed.

(** ** The diagnostics of disable *)

Lemma disable_iter_block data i w :
  exists w',
    disable_iter data i w =
    (w', disable_block data (i, fst (regulator_disable (reg_at data i) w))).
Proof.
  unfold disable_iter, disable_block, sleep_calls, truthy.
  destruct (regulator_disable (reg_at data i) w) as [rc w1]. cbn [fst snd].
  destruct (rc =? 0); destruct (poff_at data i =? 0);
    eexists; reflexivity.
Qed.

Lemma disable_loop_blocks data n : forall i s,
  wf_data data -> 0 <= i -> n = O \/ i + Z.of_nat n <= count data ->
  exists w' rcs,
    length rcs = n /\
    disable_loop data n i s =
    Some (tt, {| drvdata := drvdata s; hw := w' |},
          flat_map (disable_block data) (combine (range i n) rcs)).
Proof.
  induction n as [|n IH]; intros i s Hwf Hi [Hn|Hn]; try discriminate.
  1-2: exists (hw s), []; destruct s; split; reflexivity.
  cbn [disable_loop]. unfold bind at 1.
  rewrite (disable_body_iter data i s Hwf) by lia.
  destruct (disable_iter_block data i (hw s)) as [w1 ->].
  set (rc := fst (regulator_disable (reg_at data i) (hw s))).
  destruct (IH (i + 1) {| drvdata := drvdata s; hw := w1 |} Hwf)
    as (w2 & rcs & Hlen & Hrun); [lia | right; lia |].
  rewrite Hrun. cbn [drvdata].
  exists w2, (rc :: rcs). split; [cbn; lia | reflexivity].
Qed.

(** The trace of disable on an enabled rail is, index after index, the
    disable request with the return code rc it got, then the "failed to
    disable regulator" warning with the index and rc exactly when rc is not
    0, then the sleep if the power-off delay is not 0: each failed request
    is reported once, and nothing else is. *)
Theorem disable_reports_each_failure data w :
  wf_data data -> enabled data = true ->
  exists w' rcs,
    length rcs = Z.to_nat (count data) /\
    multi_regulator_disable (mkstate data w) =
    Some (0, mkstate (set_enabled false data) w',
          flat_map (disable_block data)
            (combine (indices (count data)) rcs)).
Proof.
  intros Hwf Hen.
  destruct (disable_loop_blocks data (Z.to_nat (count data)) 0
              (mkstate data w) Hwf (Z.le_refl 0) (count_iterations data))
    as (w' & rcs & Hlen & Hrun).
  exists w', rcs. split; [exact Hlen|].
  unfold multi_regulator_disable. cbn [mkstate drvdata]. rewrite Hen.
  cbn [negb]. unfold bind at 1. rewrite Hrun.
  cbn. rewrite !app_nil_r. reflexivity.
Qed.

(** ** Any sequence of operations *)

Lemma same_config_trans (d1 d2 d3 : @multi_regulator_data regulator) :
  same_config d1 d2 -> same_config d2 d3 -> same_config d1 d3.
Proof.
  unfold same_config. intros (A1 & A2 & A3 & A4 & A5 & A6 & A7)
    (B1 & B2 & B3 & B4 & B5 & B6 & B7).
  repeat split; congruence.
Qed.

Lemma op_run data w op :
  wf_data data ->
  exists rc data' w' t,
    multi_regulator_ops op (mkstate data w) = Some (rc, mkstate data' w', t)
    /\ same_config data data'
    /\ (rc = 0 \/ rc = 1 \/ rc = - EINVAL).
Proof.
  intros Hwf. destruct op; cbn [multi_regulator_ops].
  - destruct (enabled data) eqn:Hen.
    + eexists 0, data, w, _. split; [apply enable_when_enabled; exact Hen|].
      split; [apply same_config_refl | auto].
    + destruct (enable_run data w Hwf Hen) as (rc & d' & w' & t & Hrun & Hc).
      exists rc, d', w', t. split; [exact Hrun|].
      destruct Hc as [(-> & -> & _) | (-> & -> & _)];
        (split; [apply same_config_set_enabled || apply same_config_refl
                | auto]).
  - destruct (enabled data) eqn:Hen.
    + destruct (disable_run data w Hwf Hen) as (w' & t & Hrun & _).
      exists 0, (set_enabled false data), w', t. split; [exact Hrun|].
      split; [apply same_config_set_enabled | auto].
    + eexists 0, data, w, _. split; [apply disable_when_disabled; exact Hen|].
      split; [apply same_config_refl | auto].
  - eexists _, data, w, []. split; [apply (is_enabled_run (mkstate data w))|].
    split; [apply same_config_refl|]. cbn [mkstate drvdata].
    destruct (enabled data); auto.
Qed.

Lemma call_ops_run (ops : list regulator_op) : forall data w,
  wf_data data ->
  exists rcs data' w' t,
    call_ops ops (mkstate data w) = Some (rcs, mkstate data' w', t)
    /\ same_config data data'
    /\ length rcs = length ops
    /\ Forall (fun rc => rc = 0 \/ rc = 1 \/ rc = - EINVAL) rcs.
Proof.
  induction ops as [|op ops IH]; intros data w Hwf.
  - exists [], data, w, []. split; [reflexivity|].
    split; [apply same_config_refl|]. split; [reflexivity | constructor].
  - destruct (op_run data w op Hwf) as (rc & d1 & w1 & t1 & Hrun1 & Hc1 & Hrc).
    destruct (IH d1 w1 (wf_same_config _ _ Hc1 Hwf))
      as (rcs & d2 & w2 & t2 & Hrun2 & Hc2 & Hlen & Hall).
    exists (rc :: rcs), d2, w2, (t1 ++ t2 ++ []).
    split; [|split; [exact (same_config_trans _ _ _ Hc1 Hc2)|split]].
    + cbn [call_ops]. unfold bind at 1. rewrite Hrun1.
      unfold bind at 1. rewrite Hrun2. reflexivity.
    + cbn. rewrite Hlen. reflexivity.
    + constructor; assumption.
Qed.


(** ** What [probe] builds *)

Section ProbeFacts.

Context {platform : @Platform regulator}.

Lemma read_u32_into_same prop i (a : list Z) :
  0 <= i -> (Z.to_nat i < length a)%nat ->
  nth_uint (read_u32_into prop i a) i =
  match of_property_read_u32_index prop i with
  | Some v => v
  | None => nth_uint a i
  end.
Proof.
  intros Hi Hlen. unfold read_u32_into, nth_uint.
  destruct (of_property_read_u32_index prop i); [|reflexivity].
  apply nth_array_set_same. exact Hlen.
Qed.

Lemma probe_body_wf data i :
  wf_data data ->
  let data' := fst (probe_body data i) in
  wf_data data' /\ count data' = count data /\
  enabled data' = enabled data /\ name data' = name data.
Proof.
  intros (W1 & W2 & W3 & W4 & W5).
  destruct (probe_body_shape data i)
    as (S1 & S2 & S3 & S4 & S5 & S6 & S7 & S8).
  cbn zeta. unfold wf_data. rewrite S1, S2, S3, S4, S5, S6. auto 10.
Qed.

(** An iteration fills the blank entries of its index with what the device
    tree says. *)
Lemma probe_body_parsed data i :
  wf_data data -> 0 <= i < count data -> blank data i ->
  parsed (fst (probe_body data i)) i.
Proof.
  intros (W1 & W2 & W3 & W4 & W5) Hi (Br & Blo & Bhi & Bon & Boff).
  assert (Hn : (Z.to_nat i < Z.to_nat (count data))%nat) by lia.
  unfold parsed, dt_regulator, dt_u32, resolution_failed, probe_body.
  destruct (of_property_read_string_index _ i) as [nm|]; cbn [fst];
    [|auto].
  destruct (devm_regulator_get nm) as [e|r]; cbn [fst].
  - unfold reg_at, min_at, max_at, pon_at, poff_at in *. cbn.
    rewrite nth_array_set_same by (rewrite W1; exact Hn). auto.
  - unfold reg_at, min_at, max_at, pon_at, poff_at in *. cbn.
    rewrite nth_array_set_same by (rewrite W1; exact Hn).
    fold (nth_uint (read_u32_into "min-microvolt" i (min_uV data)) i).
    fold (nth_uint (read_u32_into "max-microvolt" i (max_uV data)) i).
    fold (nth_uint (read_u32_into "power-on-delay-us" i (pon_delay_us data)) i).
    fold (nth_uint (read_u32_into "power-off-delay-us" i (poff_delay_us data)) i).
    rewrite !read_u32_into_same by (try lia; rewrite ?W2, ?W3, ?W4, ?W5; exact Hn).
    rewrite Blo, Bhi, Bon, Boff. auto.
Qed.

Lemma probe_loop_parsed n : forall data i,
  wf_data data -> 0 <= i -> i + Z.of_nat n <= count data ->
  (forall j, 0 <= j ->
     (j < i -> parsed data j) /\ (i <= j -> blank data j)) ->
  let data' := fst (probe_loop data n i) in
  wf_data data' /\ count data' = count data /\
  enabled data' = enabled data /\ name data' = name data /\
  (forall j, 0 <= j ->
     (j < i + Z.of_nat n -> parsed data' j) /\
     (i + Z.of_nat n <= j -> blank data' j)).
Proof.
  induction n as [|n IH]; intros data i Hwf Hi Hn Hinv.
  - cbn. do 4 (split; [auto|]). intros j Hj.
    destruct (Hinv j Hj) as [P B]. split; intros H; [apply P | apply B]; lia.
  - cbn [probe_loop].
    pose proof (probe_body_wf data i Hwf) as Hshape.
    pose proof (fun j => probe_body_other data i j Hi) as Hother.
    pose proof (probe_body_parsed data i Hwf) as Hparsed.
    destruct (probe_body data i) as [data1 t1]. cbn [fst] in *.
    destruct Hshape as (S1 & S2 & S3 & S4).
    specialize (IH data1 (i + 1) S1).
    destruct (probe_loop data1 n (i + 1)) as [data2 t2]. cbn [fst] in *.
    destruct IH as (L1 & L2 & L3 & L4 & L5).
    + lia.
    + lia.
    + intros j Hj. destruct (Z.eq_dec i j) as [<- | Hne].
      * split; intros H; [|lia].
        apply Hparsed; [lia | apply (Hinv i Hj); lia].
      * destruct (Hother j Hj Hne) as (O1 & O2 & O3 & O4 & O5).
        destruct (Hinv j Hj) as [P B].
        unfold parsed, blank. rewrite O1, O2, O3, O4, O5.
        split; intros H; [apply P | apply B]; lia.
    + split; [exact L1|]. split; [congruence|]. split; [congruence|].
      split; [congruence|]. intros j Hj.
      destruct (L5 j Hj) as [P B].
      split; intros H; [apply P | apply B]; lia.
Qed.

Lemma probe_success rc data lg :
  multi_regulator_probe = (rc, Some data, lg) ->
  rc = 0 /\ wf_data data /\
  count data = of_property_count_strings "supply-names" /\
  0 < count data /\ enabled data = false /\ name data = pdev_name /\
  (forall i, 0 <= i < count data -> parsed data i).
Proof.
  unfold multi_regulator_probe.
  destruct of_node; cbn [negb]; [|discriminate].
  destruct (of_property_count_strings "supply-names" <=? 0) eqn:Hcnt;
    [discriminate|].
  apply Z.leb_gt in Hcnt.
  destruct devm_kzalloc_data; cbn [negb]; [|discriminate].
  destruct devm_kzalloc_arrays; cbn [negb]; [|discriminate].
  set (cnt := of_property_count_strings "supply-names") in *.
  set (data0 := Build_multi_regulator_data _ _ _ _ _ _ _ _).
  pose proof (probe_loop_parsed (Z.to_nat cnt) data0 0) as Hinv.
  destruct (probe_loop data0 (Z.to_nat cnt) 0) as [data1 t]. cbn [fst] in Hinv.
  destruct of_get_regulator_init_data; cbn [negb]; [|discriminate].
  destruct (truthy (devm_regulator_register data1)) eqn:Hreg; [discriminate|].
  intros [= <- <- <-].
  destruct Hinv as (L1 & L2 & L3 & L4 & L5).
  - subst data0. unfold wf_data. cbn. rewrite !repeat_length. auto.
  - lia.
  - subst data0. cbn. lia.
  - intros j Hj. split; intros H; [lia|]. subst data0.
    unfold blank, reg_at, min_at, max_at, pon_at, poff_at, nth_uint. cbn.
    rewrite !nth_repeat_default. auto.
  - subst data0. cbn in *.
    split; [reflexivity|]. split; [exact L1|]. split; [exact L2|].
    split; [lia|]. split; [exact L3|]. split; [exact L4|].
    intros i Hi. apply L5; lia.
Qed.

(** A [probe] that hands over driver data returned 0, and the data is the
    disabled rail with the name of the platform device, as many supplies
    as "supply-names" has strings (at least one), and arrays of that very
    size. *)
Theorem probe_builds_disabled_rail rc data lg :
  multi_regulator_probe = (rc, Some data, lg) ->
  rc = 0 /\ wf_data data /\
  count data = of_property_count_strings "supply-names" /\
  0 < count data /\ enabled data = false /\ name data = pdev_name.
Proof.
  intros H.
  destruct (probe_success _ _ _ H) as (H1 & H2 & H3 & H4 & H5 & H6 & _).
  auto 10.
Qed.

(** The table [probe] hands over follows the device tree index by index:
    the pointer is the one [devm_regulator_get] gave for the name of that
    index (NULL when the name cannot be read or the lookup fails), and
    each of the voltage bounds and delays is the value of its property at
    that index, or 0 when the property cannot be read there or the supply
    was not resolved. *)
Theorem probe_table_follows_device_tree rc data lg i :
  multi_regulator_probe = (rc, Some data, lg) ->
  0 <= i < count data ->
  reg_at data i = dt_regulator i /\
  min_at data i = dt_u32 "min-microvolt" i /\
  max_at data i = dt_u32 "max-microvolt" i /\
  pon_at data i = dt_u32 "power-on-delay-us" i /\
  poff_at data i = dt_u32 "power-off-delay-us" i.
Proof.
  intros H Hi.
  destruct (probe_success _ _ _ H) as (_ & _ & _ & _ & _ & _ & Hp).
  exact (Hp i Hi).
Qed.

(** The return code of [probe]: nonzero exactly when no driver data is
    handed over; -EINVAL when the device-tree node is missing or
    "supply-names" has no string (or cannot be counted); -ENOMEM when an
    allocation fails after that; and never anything but 0, -EINVAL, -ENOMEM
    or the error of [devm_regulator_register]. *)
Theorem probe_return_codes rc d lg :
  multi_regulator_probe = (rc, d, lg) ->
  (d = None <-> rc <> 0)
  /\ (of_node = false \/ of_property_count_strings "supply-names" <= 0 ->
      rc = - EINVAL)
  /\ (of_node = true -> 0 < of_property_count_strings "supply-names" ->
      devm_kzalloc_data = false \/ devm_kzalloc_arrays = false ->
      rc = - ENOMEM)
  /\ (rc = 0 \/ rc = - EINVAL \/ rc = - ENOMEM \/
      exists data, rc = devm_regulator_register data).
Proof.
  unfold multi_regulator_probe.
  destruct of_node; cbn [negb].
  2:{ intros [= <- <- <-]. split; [split; [discriminate | reflexivity]|].
      split; [reflexivity|]. split; [discriminate | auto]. }
  destruct (of_property_count_strings "supply-names" <=? 0) eqn:Hcnt.
  { apply Z.leb_le in Hcnt. intros [= <- <- <-].
    split; [split; [discriminate | reflexivity]|].
    split; [reflexivity|]. split; [lia | auto]. }
  apply Z.leb_gt in Hcnt.
  destruct devm_kzalloc_data; cbn [negb].
  2:{ intros [= <- <- <-]. split; [split; [discriminate | reflexivity]|].
      split; [intros [H|H]; [discriminate | lia]|].
      split; [reflexivity | auto]. }
  destruct devm_kzalloc_arrays; cbn [negb].
  2:{ intros [= <- <- <-]. split; [split; [discriminate | reflexivity]|].
      split; [intros [H|H]; [discriminate | lia]|].
      split; [reflexivity | auto]. }
  destruct (probe_loop _ _ 0) as [data1 t].
  destruct of_get_regulator_init_data; cbn [negb].
  2:{ intros [= <- <- <-]. split; [split; [discriminate | reflexivity]|].
      split; [reflexivity|].
      split; [intros _ _ [H|H]; discriminate | auto]. }
  destruct (truthy (devm_regulator_register data1)) eqn:Hreg;
    intros [= <- <- <-].
  - apply truthy_true in Hreg.
    split; [split; [intros _; exact Hreg | reflexivity]|].
    split; [intros [H|H]; [discriminate | lia]|].
    split; [intros _ _ [H|H]; discriminate|].
    right. right. right. exists data1. reflexivity.
  - split; [split; [discriminate | intros H; exfalso; apply H; reflexivity]|].
    split; [intros [H|H]; [discriminate | lia]|].
    split; [intros _ _ [H|H]; discriminate | auto].
Qed.

(** Whatever operations of the table the regulator core calls after a
    successful [probe], and in whatever order, each call returns (no array
    is read outside its bounds), with 0, 1 or -EINVAL, and the descriptor
    table stays the one [probe] built. *)
Theorem probed_rail_runs_any_sequence rc0 data lg ops w :
  multi_regulator_probe = (rc0, Some data, lg) ->
  exists rcs data' w' t,
    call_ops ops (mkstate data w) = Some (rcs, mkstate data' w', t)
    /\ same_config data data'
    /\ length rcs = length ops
    /\ Forall (fun rc => rc = 0 \/ rc = 1 \/ rc = - EINVAL) rcs.
Proof.
  intros H.
  destruct (probe_success _ _ _ H) as (_ & Hwf & _).
  apply call_ops_run. exact Hwf.
Qed.

End ProbeFacts.

End DriverFacts.

(** * Runs on the bench *)

Import Bench.

Lemma wf_rail3 : wf_data rail3.
Proof. repeat split. Qed.

Lemma wf_rail3_on : wf_data rail3_on.
Proof. repeat split. Qed.

Lemma wf_degraded_rail : wf_data degraded_rail.
Proof. repeat split. Qed.

(** The end-to-end example of two supplies, the second without window and
    delays. *)
Example two_supplies_enable :
  let rail :=
    {| regulators := [Some 7%nat; Some 8%nat]; name := "rail";
       min_uV := [1000; 0]; max_uV := [1100; 0];
       pon_delay_us := [500; 0]; poff_delay_us := [200; 0];
       count := 2; enabled := false |} in
  multi_regulator_enable (core := healthy) (mkstate rail 0) =
    Some (0, mkstate (set_enabled true rail) 500,
          [Called (SetVoltage (Some 7%nat) 1000 1100) 0;
           Called (Enable (Some 7%nat)) 0;
           Called (Sleep 500 1000) 0;
           Called (Enable (Some 8%nat)) 0])
  /\
  multi_regulator_disable (core := healthy)
      (mkstate (set_enabled true rail) 0) =
    Some (0, mkstate rail 200,
          [Called (Disable (Some 7%nat)) 0;
           Called (Sleep 200 400) 0;
           Called (Disable (Some 8%nat)) 0]).
Proof. split; reflexivity. Qed.

(** Supply 1 of 3 fails to enable: supply 0 is enabled and left on, supply
    2 is never touched. *)
Lemma enable_fail_fast_witness :
  wf_data rail3 /\ enabled rail3 = false /\ 0 <= 1 < count rail3 /\
  enable_loop (core := enable_1_fails) rail3 (Z.to_nat 1) 0 (mkstate rail3 0)
    = Some (None, mkstate rail3 500,
            [Called (SetVoltage (Some 0%nat) 1000000 1100000) 0;
             Called (Enable (Some 0%nat)) 0;
             Called (Sleep 500 1000) 0]) /\
  enable_fails (core := enable_1_fails) rail3 1 500 /\
  exists w' tf,
    multi_regulator_enable (core := enable_1_fails) (mkstate rail3 0)
      = Some (- EINVAL, mkstate rail3 w',
              [Called (SetVoltage (Some 0%nat) 1000000 1100000) 0;
               Called (Enable (Some 0%nat)) 0;
               Called (Sleep 500 1000) 0] ++ tf)
    /\ - EINVAL <> 0
    /\ [Called (SetVoltage (Some 0%nat) 1000000 1100000) 0;
        Called (Enable (Some 0%nat)) 0;
        Called (Sleep 500 1000) 0]
       = all_ok (flat_map (enable_calls rail3) (indices 1))
    /\ enable_failure rail3 1 tf
    /\ (exists rest, enable_calls rail3 1 = calls tf ++ rest)
    /\ Forall (fun c => is_disable c = false)
         (calls ([Called (SetVoltage (Some 0%nat) 1000000 1100000) 0;
                  Called (Enable (Some 0%nat)) 0;
                  Called (Sleep 500 1000) 0] ++ tf)).
Proof.
  assert (Hf : enable_fails (core := enable_1_fails) rail3 1 500)
    by (vm_compute; intros H; discriminate H).
  split; [exact wf_rail3|]. split; [reflexivity|].
  split; [simpl; lia|]. split; [reflexivity|].
  split; [exact Hf|].
  apply (enable_fail_fast (core := enable_1_fails) rail3 0 1 500).
  - exact wf_rail3.
  - reflexivity.
  - simpl; lia.
  - reflexivity.
  - right. exact Hf.
Defined.

(** Supply 1 of 3 fails to disable: supply 2 is disabled all the same. *)
Lemma disable_best_effort_witness :
  wf_data rail3_on /\ enabled rail3_on = true /\
  exists w' t,
    multi_regulator_disable (core := disable_1_fails) (mkstate rail3_on 0) =
      Some (0, mkstate (set_enabled false rail3_on) w', t)
    /\ enabled (set_enabled false rail3_on) = false
    /\ filter is_disable (calls t) =
       map (fun j => Disable (reg_at rail3_on j)) (indices (count rail3_on)).
Proof.
  split; [exact wf_rail3_on|]. split; [reflexivity|].
  apply (disable_best_effort (core := disable_1_fails) rail3_on 0).
  - exact wf_rail3_on.
  - reflexivity.
Defined.

(** Runs on [board], which names a supply that cannot be got: [probe]
    leaves a NULL pointer at index 0 and the requests of index 0 are made
    with it. *)
Lemma absent_supply_not_skipped :
  fst (multi_regulator_probe (platform := board)) = (0, Some degraded_rail)
  /\ resolution_failed (platform := board) 0 = true
  /\ reg_at degraded_rail 0 = None
  /\ multi_regulator_enable (core := rejects_null) (mkstate degraded_rail 0) =
       Some (- EINVAL, mkstate degraded_rail 0,
             [Called (Enable None) (- EIO);
              Logged KERN_ERR MSG_ENABLE
                [ArgS "vdd-cam"; ArgD 0; ArgD (- EIO)]])
  /\ multi_regulator_enable (core := healthy) (mkstate degraded_rail 0) =
       Some (0, mkstate (set_enabled true degraded_rail) 50,
             [Called (Enable None) 0;
              Called (SetVoltage (Some 1%nat) 1200000 1200000) 0;
              Called (Enable (Some 1%nat)) 0;
              Called (Sleep 50 100) 0])
  /\ multi_regulator_disable (core := healthy)
       (mkstate (set_enabled true degraded_rail) 0) =
       Some (0, mkstate degraded_rail 0,
             [Called (Disable None) 0; Called (Disable (Some 1%nat)) 0]).
Proof. repeat split. Qed.

Lemma absent_supply_is_forwarded_witness :
  multi_regulator_probe (platform := board) =
    (0, Some degraded_rail,
     [Logged KERN_ERR "cannot get regulator %s-supply" [ArgS "vana"];
      Logged KERN_DEBUG "i=%d => %s min %u max %u pon %u poff %u"
        [ArgD 1; ArgS "vdig"; ArgD 1200000; ArgD 1200000; ArgD 50; ArgD 0];
      Logged KERN_INFO "probed (%s, %d supplies)"
        [ArgS "vdd-cam"; ArgD 2]]) /\
  0 <= 0 < count degraded_rail /\
  resolution_failed (platform := board) 0 = true /\
  blank degraded_rail 0 /\
  enable_calls degraded_rail 0 = [Enable None] /\
  disable_calls degraded_rail 0 = [Disable None] /\
  (exists rc w',
     regulator_enable (RegulatorCore := rejects_null) None 0 = (rc, w') /\
     enable_body (core := rejects_null) degraded_rail 0 (mkstate degraded_rail 0) =
     Some (if rc =? 0 then None else Some (- EINVAL),
           mkstate degraded_rail w',
           Called (Enable None) rc ::
           (if rc =? 0 then []
            else [Logged KERN_ERR MSG_ENABLE
                    [ArgS (name degraded_rail); ArgD 0; ArgD rc]]))) /\
  (exists rc w',
     regulator_disable (RegulatorCore := rejects_null) None 0 = (rc, w') /\
     disable_body (core := rejects_null) degraded_rail 0 (mkstate degraded_rail 0) =
     Some (tt, mkstate degraded_rail w',
           Called (Disable None) rc ::
           (if rc =? 0 then []
            else [Logged KERN_WARNING MSG_DISABLE
                    [ArgS (name degraded_rail); ArgD 0; ArgD rc]]))).
Proof.
  split; [reflexivity|]. split; [simpl; lia|].
  split; [reflexivity|].
  eapply (absent_supply_is_forwarded (core := rejects_null) (platform := board)
            0 degraded_rail _ 0 (mkstate degraded_rail 0)).
  - reflexivity.
  - simpl; lia.
  - reflexivity.
Defined.

Lemma redundant_call_is_noop_witness :
  enabled rail3_on = true /\ enabled rail3 = false /\
  (exists t,
     multi_regulator_enable (core := healthy) (mkstate rail3_on 0) =
       Some (0, mkstate rail3_on 0, t)
     /\ t = [Logged KERN_WARNING MSG_ALREADY_ENABLED [ArgS (name rail3_on)]]
     /\ calls t = []) /\
  (exists t,
     multi_regulator_disable (core := healthy) (mkstate rail3 0) =
       Some (0, mkstate rail3 0, t)
     /\ t = [Logged KERN_WARNING MSG_ALREADY_DISABLED [ArgS (name rail3)]]
     /\ calls t = []).
Proof.
  split; [reflexivity|]. split; [reflexivity|]. split.
  - apply (proj1 (redundant_call_is_noop (core := healthy) rail3_on 0)).
    reflexivity.
  - apply (proj2 (redundant_call_is_noop (core := healthy) rail3 0)).
    reflexivity.
Defined.

Lemma ascending_order_witness :
  wf_data rail3 /\ enabled rail3 = false /\
  indices (count rail3) = [0; 1; 2] /\
  exists rc s' t k,
    multi_regulator_enable (core := enable_1_fails) (mkstate rail3 0)
      = Some (rc, s', t)
    /\ 0 <= k <= Z.max 0 (count rail3)
    /\ (forall j, 0 <= j < k ->
          ~ request_fails (core := enable_1_fails) rail3 j 0)
    /\ ((rc = 0 /\ k = Z.max 0 (count rail3) /\
         calls t = flat_map (enable_calls rail3) (indices (count rail3)))
        \/ (rc = - EINVAL /\ k < count rail3 /\
            ((set_voltage_fails (core := enable_1_fails) rail3 k
                (core_before (core := enable_1_fails) rail3 k 0) /\
              calls t = flat_map (enable_calls rail3) (indices k) ++
                        [SetVoltage (reg_at rail3 k) (to_int (min_at rail3 k))
                           (to_int (max_at rail3 k))])
             \/ (enable_fails (core := enable_1_fails) rail3 k
                   (core_before (core := enable_1_fails) rail3 k 0) /\
                 calls t = flat_map (enable_calls rail3) (indices k) ++
                           voltage_calls rail3 k ++
                           [Enable (reg_at rail3 k)])))).
Proof.
  split; [exact wf_rail3|]. split; [reflexivity|]. split; [reflexivity|].
  apply (proj1 (proj2 (ascending_order (core := enable_1_fails) rail3 0
                         wf_rail3))).
  reflexivity.
Defined.

(** The run behind it: the first request that fails is the enable request
    of index 1, and the calls stop there. *)
Example enable_1_fails_calls :
  ~ request_fails (core := enable_1_fails) rail3 0 0
  /\ enable_fails (core := enable_1_fails) rail3 1
       (core_before (core := enable_1_fails) rail3 1 0)
  /\ flat_map (enable_calls rail3) (indices 1) ++
     voltage_calls rail3 1 ++ [Enable (reg_at rail3 1)] =
     [SetVoltage (Some 0%nat) 1000000 1100000; Enable (Some 0%nat);
      Sleep 500 1000; Enable (Some 1%nat)].
Proof.
  split; [|split; [|reflexivity]].
  - intros [[_ H] | [_ H]]; apply H; reflexivity.
  - vm_compute. intros H. discriminate H.
Qed.

Lemma voltage_set_gating_witness :
  wf_data rail3 /\ enabled rail3 = false /\
  exists rc s' t k,
    multi_regulator_enable (core := enable_1_fails) (mkstate rail3 0)
      = Some (rc, s', t)
    /\ 0 <= k <= Z.max 0 (count rail3)
    /\ (forall j, 0 <= j < k ->
          ~ request_fails (core := enable_1_fails) rail3 j 0)
    /\ ((rc = 0 /\ k = Z.max 0 (count rail3)) \/
        (rc = - EINVAL /\ k < count rail3 /\
         request_fails (core := enable_1_fails) rail3 k 0))
    /\ filter is_set_voltage (calls t) =
       flat_map
         (fun i =>
            if (min_at rail3 i =? 0) && (max_at rail3 i =? 0) then []
            else [SetVoltage (reg_at rail3 i) (to_int (min_at rail3 i))
                    (to_int (max_at rail3 i))])
         (indices (if rc =? 0 then k else k + 1)).
Proof.
  split; [exact wf_rail3|]. split; [reflexivity|].
  apply (voltage_set_gating (core := enable_1_fails) rail3 0 wf_rail3).
  reflexivity.
Defined.

(** C6 fails for bounds from 2^31 microvolts on: the table holds
    [unsigned int] values and [regulator_set_voltage] takes [int] bounds,
    so the conversion at the call changes them.  With min_uV = 3000000000
    and max_uV = 3300000000 the request made has the window -1294967296,
    -994967296. *)
Theorem voltage_window_converts_to_int :
  min_at high_rail 0 = 3000000000 /\ max_at high_rail 0 = 3300000000
  /\ multi_regulator_enable (core := healthy) (mkstate high_rail 0) =
       Some (0, mkstate (set_enabled true high_rail) 0,
             [Called (SetVoltage (Some 0%nat) (-1294967296) (-994967296)) 0;
              Called (Enable (Some 0%nat)) 0])
  /\ -1294967296 <> 3000000000.
Proof. repeat split. discriminate. Qed.

(** C3 fails on the rail [probe] builds from [board], whose supply "vana"
    cannot be got: the pointer of index 0 is NULL, and for every regulator
    core the first call of enable is the enable request with the NULL
    pointer, and the calls of disable are the disable request with the
    NULL pointer followed by that of supply 1.  Neither loop tests the
    pointer. *)
Theorem absent_supply_is_requested
    (core : RegulatorCore supply clock) (w : clock) :
  fst (multi_regulator_probe (platform := board)) = (0, Some degraded_rail)
  /\ resolution_failed (platform := board) 0 = true
  /\ reg_at degraded_rail 0 = None
  /\ (exists rc s' t rest,
        multi_regulator_enable (mkstate degraded_rail w) = Some (rc, s', t)
        /\ calls t = Enable None :: rest)
  /\ (exists s' t,
        multi_regulator_disable (mkstate (set_enabled true degraded_rail) w)
          = Some (0, s', t)
        /\ calls t = [Disable None; Disable (Some 1%nat)]).
Proof.
  split; [reflexivity|]. split; [reflexivity|]. split; [reflexivity|].
  split.
  - destruct (enable_first_failure degraded_rail w wf_degraded_rail eq_refl)
      as (rc & s' & t & k & Hrun & Hk & _ & Hc).
    exists rc, s', t.
    destruct Hc as [(_ & _ & ->) | (_ & Hlt & Hkind)].
    + eexists. split; [exact Hrun | reflexivity].
    + assert (Hk01 : k = 0 \/ k = 1) by (simpl in Hlt; lia).
      destruct Hk01 as [-> | ->]; destruct Hkind as [[[G _] Hc] | [_ Hc]].
      * vm_compute in G. discriminate G.
      * eexists. split; [exact Hrun | rewrite Hc; reflexivity].
      * eexists. split; [exact Hrun | rewrite Hc; reflexivity].
      * eexists. split; [exact Hrun | rewrite Hc; reflexivity].
  - destruct (disable_run (set_enabled true degraded_rail) w
                wf_degraded_rail eq_refl) as (w' & t & Hrun & Hc).
    eexists _, t. split; [exact Hrun | rewrite Hc; reflexivity].
Qed.

(** C7 fails for delays from 2^31 microseconds on: the upper bound of the
    sleep is computed as the [unsigned int] product [2 * d], which wraps.
    With a power-on (or power-off) delay of 2147483648 the driver asks for
    a sleep between 2147483648 and 0 microseconds, not between 2147483648
    and 4294967296. *)
Theorem delay_upper_bound_wraps :
  pon_at slow_rail 0 = 2147483648
  /\ multi_regulator_enable (core := healthy) (mkstate slow_rail 0) =
       Some (0, mkstate (set_enabled true slow_rail) 2147483648,
             [Called (Enable (Some 0%nat)) 0;
              Called (Sleep 2147483648 0) 0])
  /\ multi_regulator_disable (core := healthy)
       (mkstate (set_enabled true slow_rail) 0) =
       Some (0, mkstate slow_rail 2147483648,
             [Called (Disable (Some 0%nat)) 0;
              Called (Sleep 2147483648 0) 0])
  /\ 2 * 2147483648 <> 0.
Proof. repeat split. discriminate. Qed.

Lemma failure_code_collapses_witness :
  wf_data rail3 /\
  exists rc s' t,
    multi_regulator_enable (core := enable_1_fails) (mkstate rail3 0)
      = Some (rc, s', t)
    /\ (rc = 0 \/
        (rc = - EINVAL /\
         exists i e pre, 0 <= i < count rail3 /\ e <> 0 /\
           (t = pre ++
                [Called (SetVoltage (reg_at rail3 i) (to_int (min_at rail3 i))
                           (to_int (max_at rail3 i))) e;
                 Logged KERN_ERR MSG_SET_VOLTAGE
                   [ArgS (name rail3); ArgD i; ArgD e]]
            \/
            t = pre ++
                [Called (Enable (reg_at rail3 i)) e;
                 Logged KERN_ERR MSG_ENABLE
                   [ArgS (name rail3); ArgD i; ArgD e]])))
    /\ MSG_SET_VOLTAGE <> MSG_ENABLE
    /\ - EINVAL <> 0.
Proof.
  split; [exact wf_rail3|].
  apply (failure_code_collapses (core := enable_1_fails) rail3 0 wf_rail3).
Defined.

(** The same code when it is the set-voltage request that fails. *)
Example set_voltage_failure_code :
  multi_regulator_enable (core := bench_core (only 2%nat) nobody nobody)
    (mkstate rail3 0) =
  Some (- EINVAL, mkstate rail3 500,
        [Called (SetVoltage (Some 0%nat) 1000000 1100000) 0;
         Called (Enable (Some 0%nat)) 0;
         Called (Sleep 500 1000) 0;
         Called (Enable (Some 1%nat)) 0;
         Called (SetVoltage (Some 2%nat) 1800000 1800000) (- EIO);
         Logged KERN_ERR MSG_SET_VOLTAGE
           [ArgS "vdd-cam"; ArgD 2; ArgD (- EIO)]]).
Proof. reflexivity. Qed.

Lemma operations_frame_witness :
  wf_data rail3 /\
  (exists rc data' w' t,
     multi_regulator_enable (core := enable_1_fails) (mkstate rail3 0)
       = Some (rc, mkstate data' w', t)
     /\ same_config rail3 data')
  /\
  (exists rc data' w' t,
     multi_regulator_disable (core := enable_1_fails) (mkstate rail3 0)
       = Some (rc, mkstate data' w', t)
     /\ same_config rail3 data')
  /\
  (exists rc,
     multi_regulator_is_enabled (mkstate rail3 0)
       = Some (rc, mkstate rail3 0, [])).
Proof.
  split; [exact wf_rail3|].
  apply (operations_frame (core := enable_1_fails) rail3 0 wf_rail3).
Defined.

(** ** Runs of sequences of calls *)

Lemma enable_disable_round_trip_witness :
  wf_data rail3 /\ enabled rail3 = false /\
  multi_regulator_enable (core := healthy) (mkstate rail3 0) =
    Some (0, mkstate rail3_on 510,
          [Called (SetVoltage (Some 0%nat) 1000000 1100000) 0;
           Called (Enable (Some 0%nat)) 0; Called (Sleep 500 1000) 0;
           Called (Enable (Some 1%nat)) 0;
           Called (SetVoltage (Some 2%nat) 1800000 1800000) 0;
           Called (Enable (Some 2%nat)) 0; Called (Sleep 10 20) 0]) /\
  multi_regulator_is_enabled (mkstate rail3_on 510)
    = Some (1, mkstate rail3_on 510, []) /\
  exists w2 t2,
    multi_regulator_disable (core := healthy) (mkstate rail3_on 510)
      = Some (0, mkstate rail3 w2, t2)
    /\ calls t2 = flat_map (disable_calls rail3) (indices (count rail3)).
Proof.
  split; [exact wf_rail3|]. split; [reflexivity|]. split; [reflexivity|].
  eapply (enable_disable_round_trip (core := healthy) rail3 0).
  - exact wf_rail3.
  - reflexivity.
  - reflexivity.
Defined.

Lemma failed_enable_is_not_undone_witness :
  wf_data rail3 /\ enabled rail3 = false /\
  multi_regulator_enable (core := enable_1_fails) (mkstate rail3 0) =
    Some (- EINVAL, mkstate rail3 500,
          [Called (SetVoltage (Some 0%nat) 1000000 1100000) 0;
           Called (Enable (Some 0%nat)) 0; Called (Sleep 500 1000) 0;
           Called (Enable (Some 1%nat)) (- EIO);
           Logged KERN_ERR MSG_ENABLE
             [ArgS "vdd-cam"; ArgD 1; ArgD (- EIO)]]) /\
  - EINVAL <> 0 /\
  (exists w1, mkstate rail3 500 = mkstate rail3 w1) /\
  multi_regulator_is_enabled (mkstate rail3 500)
    = Some (0, mkstate rail3 500, []) /\
  multi_regulator_disable (core := enable_1_fails) (mkstate rail3 500) =
    Some (0, mkstate rail3 500,
          [Logged KERN_WARNING MSG_ALREADY_DISABLED [ArgS (name rail3)]]).
Proof.
  split; [exact wf_rail3|]. split; [reflexivity|]. split; [reflexivity|].
  split; [discriminate|].
  eapply (failed_enable_is_not_undone (core := enable_1_fails) rail3 0).
  - exact wf_rail3.
  - reflexivity.
  - reflexivity.
  - discriminate.
Defined.

Lemma repeated_call_is_noop_witness :
  wf_data rail3_on /\ enabled rail3_on = true /\
  exists s1 t1 t2,
    multi_regulator_disable (core := healthy) (mkstate rail3_on 0)
      = Some (0, s1, t1) /\
    multi_regulator_disable (core := healthy) s1 = Some (0, s1, t2) /\
    calls t2 = [].
Proof.
  split; [exact wf_rail3_on|]. split; [reflexivity|].
  apply (proj2 (repeated_call_is_noop (core := healthy) rail3_on 0
                  wf_rail3_on)).
  reflexivity.
Defined.

Lemma enable_fails_only_on_failed_request_witness :
  wf_data rail3 /\ enabled rail3 = false /\
  multi_regulator_enable (core := enable_1_fails) (mkstate rail3 0) =
    Some (- EINVAL, mkstate rail3 500,
          [Called (SetVoltage (Some 0%nat) 1000000 1100000) 0;
           Called (Enable (Some 0%nat)) 0; Called (Sleep 500 1000) 0;
           Called (Enable (Some 1%nat)) (- EIO);
           Logged KERN_ERR MSG_ENABLE
             [ArgS "vdd-cam"; ArgD 1; ArgD (- EIO)]]) /\
  - EINVAL <> 0 /\
  exists i w_i t_i,
    0 <= i < count rail3 /\
    enable_loop (core := enable_1_fails) rail3 (Z.to_nat i) 0 (mkstate rail3 0)
      = Some (None, mkstate rail3 w_i, t_i) /\
    (set_voltage_fails (core := enable_1_fails) rail3 i w_i \/
     enable_fails (core := enable_1_fails) rail3 i w_i).
Proof.
  split; [exact wf_rail3|]. split; [reflexivity|]. split; [reflexivity|].
  split; [discriminate|].
  eapply (enable_fails_only_on_failed_request (core := enable_1_fails)
            rail3 0).
  - exact wf_rail3.
  - reflexivity.
  - reflexivity.
  - discriminate.
Defined.

Lemma enable_succeeds_when_requests_do_witness :
  (forall r lo hi w0,
     fst (regulator_set_voltage (RegulatorCore := healthy) r lo hi w0) = 0) /\
  (forall r w0, fst (regulator_enable (RegulatorCore := healthy) r w0) = 0) /\
  wf_data rail3 /\ enabled rail3 = false /\
  exists w',
    multi_regulator_enable (core := healthy) (mkstate rail3 0) =
    Some (0, mkstate (set_enabled true rail3) w',
          all_ok (flat_map (enable_calls rail3) (indices (count rail3)))).
Proof.
  split; [reflexivity|]. split; [reflexivity|].
  split; [exact wf_rail3|]. split; [reflexivity|].
  apply (enable_succeeds_when_requests_do (core := healthy) rail3 0).
  - reflexivity.
  - reflexivity.
  - exact wf_rail3.
  - reflexivity.
Defined.

Lemma rail3_delays_below_wrap i :
  0 <= i < count rail3 ->
  0 <= pon_at rail3 i < 2 ^ 31 /\ 0 <= poff_at rail3 i < 2 ^ 31.
Proof.
  intros Hi.
  assert (H : i = 0 \/ i = 1 \/ i = 2) by (simpl in Hi; lia).
  destruct H as [-> | [-> | ->]]; vm_compute; repeat split; discriminate.
Defined.

Lemma delay_windows_witness :
  wf_data rail3_on /\
  (forall i, 0 <= i < count rail3_on ->
     0 <= pon_at rail3_on i < 2 ^ 31 /\ 0 <= poff_at rail3_on i < 2 ^ 31) /\
  enabled rail3_on = true /\
  exists s' t,
    multi_regulator_disable (core := healthy) (mkstate rail3_on 0)
      = Some (0, s', t) /\
    filter is_sleep (calls t) =
    flat_map (fun i => if poff_at rail3_on i =? 0 then []
                       else [Sleep (poff_at rail3_on i)
                               (2 * poff_at rail3_on i)])
      (indices (count rail3_on)).
Proof.
  split; [exact wf_rail3_on|]. split; [exact rail3_delays_below_wrap|].
  split; [reflexivity|].
  apply (proj2 (delay_windows (core := healthy) rail3_on 0 wf_rail3_on
                  rail3_delays_below_wrap)).
  reflexivity.
Defined.

Lemma requests_by_operation_witness :
  wf_data rail3 /\ enabled rail3 = false /\
  exists rc s' t,
    multi_regulator_enable (core := enable_1_fails) (mkstate rail3 0)
      = Some (rc, s', t) /\
    Forall (fun c => is_disable c = false) (calls t).
Proof.
  split; [exact wf_rail3|]. split; [reflexivity|].
  apply (proj1 (requests_by_operation (core := enable_1_fails) rail3 0
                  wf_rail3)).
  reflexivity.
Defined.

Lemma disable_reports_each_failure_witness :
  wf_data rail3_on /\ enabled rail3_on = true /\
  exists w' rcs,
    length rcs = Z.to_nat (count rail3_on) /\
    multi_regulator_disable (core := disable_1_fails) (mkstate rail3_on 0) =
    Some (0, mkstate (set_enabled false rail3_on) w',
          flat_map (disable_block rail3_on)
            (combine (indices (count rail3_on)) rcs)).
Proof.
  split; [exact wf_rail3_on|]. split; [reflexivity|].
  apply (disable_reports_each_failure (core := disable_1_fails) rail3_on 0).
  - exact wf_rail3_on.
  - reflexivity.
Defined.

(** The run behind it: the warning follows the failed request of index 1
    and nothing else is reported. *)
Example disable_1_fails_trace :
  multi_regulator_disable (core := disable_1_fails) (mkstate rail3_on 0) =
  Some (0, mkstate rail3 200,
        flat_map (disable_block rail3_on) [(0, 0); (1, - EIO); (2, 0)])
  /\ flat_map (disable_block rail3_on) [(0, 0); (1, - EIO); (2, 0)] =
     [Called (Disable (Some 0%nat)) 0; Called (Sleep 200 400) 0;
      Called (Disable (Some 1%nat)) (- EIO);
      Logged KERN_WARNING MSG_DISABLE [ArgS "vdd-cam"; ArgD 1; ArgD (- EIO)];
      Called (Disable (Some 2%nat)) 0].
Proof. split; reflexivity. Qed.

(** ** Runs of [probe] *)

Lemma probe_builds_disabled_rail_witness :
  multi_regulator_probe (platform := board) =
    (0, Some degraded_rail,
     [Logged KERN_ERR "cannot get regulator %s-supply" [ArgS "vana"];
      Logged KERN_DEBUG "i=%d => %s min %u max %u pon %u poff %u"
        [ArgD 1; ArgS "vdig"; ArgD 1200000; ArgD 1200000; ArgD 50; ArgD 0];
      Logged KERN_INFO "probed (%s, %d supplies)"
        [ArgS "vdd-cam"; ArgD 2]]) /\
  0 = 0 /\ wf_data degraded_rail /\
  count degraded_rail =
    of_property_count_strings (Platform := board) "supply-names" /\
  0 < count degraded_rail /\ enabled degraded_rail = false /\
  name degraded_rail = pdev_name (Platform := board).
Proof.
  split; [reflexivity|].
  eapply (probe_builds_disabled_rail (platform := board)).
  reflexivity.
Defined.

Lemma probe_table_follows_device_tree_witness :
  multi_regulator_probe (platform := board) =
    (0, Some degraded_rail,
     [Logged KERN_ERR "cannot get regulator %s-supply" [ArgS "vana"];
      Logged KERN_DEBUG "i=%d => %s min %u max %u pon %u poff %u"
        [ArgD 1; ArgS "vdig"; ArgD 1200000; ArgD 1200000; ArgD 50; ArgD 0];
      Logged KERN_INFO "probed (%s, %d supplies)"
        [ArgS "vdd-cam"; ArgD 2]]) /\
  0 <= 1 < count degraded_rail /\
  reg_at degraded_rail 1 = dt_regulator (platform := board) 1 /\
  min_at degraded_rail 1 = dt_u32 (platform := board) "min-microvolt" 1 /\
  max_at degraded_rail 1 = dt_u32 (platform := board) "max-microvolt" 1 /\
  pon_at degraded_rail 1 = dt_u32 (platform := board) "power-on-delay-us" 1 /\
  poff_at degraded_rail 1 =
    dt_u32 (platform := board) "power-off-delay-us" 1.
Proof.
  split; [reflexivity|]. split; [simpl; lia|].
  eapply (probe_table_follows_device_tree (platform := board)).
  - reflexivity.
  - simpl; lia.
Defined.

(** Without "supply-names" nothing is built. *)
Lemma probe_return_codes_witness :
  multi_regulator_probe (platform := bare_board) =
    (- EINVAL, None, [Logged KERN_ERR "invalid number of inputs" []]) /\
  (@None (@multi_regulator_data supply) = None <-> - EINVAL <> 0) /\
  (of_node (Platform := bare_board) = false \/
   of_property_count_strings (Platform := bare_board) "supply-names" <= 0 ->
   - EINVAL = - EINVAL) /\
  (of_node (Platform := bare_board) = true ->
   0 < of_property_count_strings (Platform := bare_board) "supply-names" ->
   devm_kzalloc_data (Platform := bare_board) = false \/
   devm_kzalloc_arrays (Platform := bare_board) = false ->
   - EINVAL = - ENOMEM) /\
  (- EINVAL = 0 \/ - EINVAL = - EINVAL \/ - EINVAL = - ENOMEM \/
   exists data,
     - EINVAL = devm_regulator_register (Platform := bare_board) data).
Proof.
  split; [reflexivity|].
  eapply (probe_return_codes (platform := bare_board)).
  reflexivity.
Defined.

Lemma probed_rail_runs_any_sequence_witness :
  multi_regulator_probe (platform := board) =
    (0, Some degraded_rail,
     [Logged KERN_ERR "cannot get regulator %s-supply" [ArgS "vana"];
      Logged KERN_DEBUG "i=%d => %s min %u max %u pon %u poff %u"
        [ArgD 1; ArgS "vdig"; ArgD 1200000; ArgD 1200000; ArgD 50; ArgD 0];
      Logged KERN_INFO "probed (%s, %d supplies)"
        [ArgS "vdd-cam"; ArgD 2]]) /\
  exists rcs data' w' t,
    call_ops (core := rejects_null)
      [OP_enable; OP_is_enabled; OP_disable; OP_enable] (mkstate degraded_rail 0)
      = Some (rcs, mkstate data' w', t)
    /\ same_config degraded_rail data'
    /\ length rcs = 4%nat
    /\ Forall (fun rc => rc = 0 \/ rc = 1 \/ rc = - EINVAL) rcs.
Proof.
  split; [reflexivity|].
  eapply (probed_rail_runs_any_sequence (core := rejects_null)
            (platform := board) 0 degraded_rail _
            [OP_enable; OP_is_enabled; OP_disable; OP_enable] 0).
  reflexivity.
Defined.
